(** * DodecaSkyMap: a dodecahedron-based sky map pixelization

    A shallow embedding of [python/lsst/skymap/dodecaSkyMap.py], and the
    properties of the sky map that hold of it: the pole policy of the
    vector-to-coordinate conversion, the twelve tracts and their lookup,
    and pickling.

    Python floats are IEEE binary64 values: they are embedded as Rocq's
    primitive floats.  Python exceptions are embedded as an error monad.
    The [lsst.afw] library (angles, coordinates, the projection factory) is
    external to the package: its operations are Section variables. *)

From Stdlib Require Import ZArith Floats Lia.
From stdpp Require Import base strings pretty gmap list.

Open Scope Z_scope.

(** ** Python exceptions *)

Inductive exn : Type :=
| RuntimeError (msg : string)
| NameError (name : string)
| KeyError (key : string)
| TypeError (msg : string)
| IndexError (msg : string)
| ConfigurationError (msg : string).

Inductive result (A : Type) : Type :=
| Ok (a : A)
| Raise (e : exn).
Arguments Ok {A} a.
Arguments Raise {A} e.

Definition rbind {A B} (m : result A) (k : A -> result B) : result B :=
  match m with
  | Ok a => k a
  | Raise e => Raise e
  end.

Notation "'let*' x ':=' m 'in' k" := (rbind m (fun x => k))
  (at level 10, x pattern, m at level 100, k at level 200).

(** [[f(x) for x in l]] for a fallible [f]: the first exception stops the
    comprehension. *)
Fixpoint mapM {A B} (f : A -> result B) (l : list A) : result (list B) :=
  match l with
  | [] => Ok []
  | x :: l' =>
      let* y := f x in
      let* ys := mapM f l' in
      Ok (y :: ys)
  end.

(** ** Module constants *)

(** [_TinyFloat = numpy.finfo(float).tiny]: the smallest positive normal
    binary64 number, 2^-1022. *)
Definition _TinyFloat : float := 0x1p-1022%float.

(** A cartesian vector, "a sequence of three floats". *)
Record Vec : Type := mkVec { vx : float; vy : float; vz : float }.

Inductive AngleUnit : Type := radians | degrees | arcseconds.

(** The exception classes in scope in the module: it defines and imports
    none, so these are the builtin ones.  Evaluating any other name raises
    [NameError]. *)
Definition exception_class (name : string) : result (string -> exn) :=
  if decide (name = "RuntimeError") then Ok RuntimeError
  else if decide (name = "TypeError") then Ok TypeError
  else if decide (name = "KeyError") then Ok KeyError
  else if decide (name = "IndexError") then Ok IndexError
  else Raise (NameError name).

(** [raise name(msg)]: the name is evaluated, then the exception is made
    and raised. *)
Definition py_raise {A} (name : string) (msg : string) : result A :=
  let* cls := exception_class name in
  Raise (cls msg).

(** ** Python values that occur in a pickled state *)

(** A Python tuple of ints, such as [(1, 0)] or [(4000, 4000)]. *)
Definition pytuple : Type := list Z.

(** Lexicographic order of tuples: the first differing item decides; a
    proper prefix is smaller. *)
Fixpoint tuple_lt (a b : pytuple) : bool :=
  match a, b with
  | [], [] => false
  | [], _ :: _ => true
  | _ :: _, [] => false
  | x :: a', y :: b' =>
      if (x <? y)%Z then true
      else if (y <? x)%Z then false
      else tuple_lt a' b'
  end.

(** [a >= b] on tuples. *)
Definition tuple_ge (a b : pytuple) : bool := negb (tuple_lt a b).

(** [float(n)] for a Python int: rounding to nearest even. *)
Definition float_of_int (n : Z) : float :=
  SF2Prim (binary_normalize prec emax n 0 false).

(** [repr] of a tuple of ints, as ["%s" % (version,)] prints it. *)
Definition tuple_repr (t : pytuple) : string :=
  match t with
  | [] => "()"
  | [x] => "(" +:+ pretty x +:+ ",)"
  | x :: t' =>
      "(" +:+ pretty x +:+
      foldr (fun y acc => ", " +:+ pretty y +:+ acc) ")" t'
  end.

(** ** The numerical kernel of the face-membership test *)

Definition dot (a b : Vec) : float :=
  (vx a * vx b + vy a * vy b + vz a * vz b)%float.

(** Index of the largest value, the first one on ties: the running best is
    replaced only by a strictly larger value. *)
Fixpoint argmax_from (best : nat) (bestv : float) (i : nat) (l : list float) : nat :=
  match l with
  | [] => best
  | v :: l' =>
      if (bestv <? v)%float then argmax_from i v (S i) l'
      else argmax_from best bestv (S i) l'
  end.

Definition argmax (l : list float) : nat :=
  match l with
  | [] => 0%nat
  | v :: l' => argmax_from 0 v 1 l'
  end.

(** ** A stand-in for [lsst.afw]

    A small executable stand-in for the external library, on which the
    embedding can be run: angles are their value in radians, a coordinate
    records how it was made, and the projection factory knows three
    projection codes.  It does no trigonometry: a coordinate made from a
    vector reads longitude 0, and a coordinate made from angles has the
    vector of the pole of its hemisphere. *)
Module AfwStandIn.

Definition Angle : Type := float.

Definition pi : float := 0x1.921fb54442d18p+1%float.

Definition mkAngle (x : float) (u : AngleUnit) : Angle :=
  match u with
  | radians => x
  | degrees => (x * (pi / 180))%float
  | arcseconds => (x * (pi / 180 / 3600))%float
  end.

Definition asRadians (a : Angle) : float := a.

Inductive Coord : Type :=
| LonLat (lon lat : Angle)
| FromVec (v : Vec).

Definition getLongitude (c : Coord) : Angle :=
  match c with
  | LonLat lon _ => lon
  | FromVec _ => 0%float
  end.

Definition icrsVector (c : Coord) : Vec :=
  match c with
  | LonLat _ lat => mkVec 0 0 (if (0 <? lat)%float then 1 else -1)
  | FromVec v => v
  end.

Record Wcs : Type := mkWcs {
  wcs_center : Coord;
  wcs_pixelScale : Angle;
  wcs_projection : string }.

Definition makeWcs (ctr : Coord) (pixelScale : Angle) (projection : string) : option Wcs :=
  if bool_decide (projection ∈ ["STG"; "MOL"; "TAN"]) then
    Some (mkWcs ctr pixelScale projection)
  else None.

(** The twelve face centers and vertex rings of a regular dodecahedron on
    the unit sphere, with a face centered on each pole ([polar]) and with a
    vertex on each pole ([offset]). *)
Definition polar_centers : list Vec :=
  [mkVec 0 0 1;
   mkVec 0x1.727c9716ffb77p-1 0x1.0d2ca0da1530dp-1 0x1.c9f25c5bfedd8p-2;
   mkVec (-0x1.1b06d1d200913p-2) 0x1.b38880b4603e5p-1 0x1.c9f25c5bfeddap-2;
   mkVec (-0x1.c9f25c5bfedd9p-1) 0 0x1.c9f25c5bfeddcp-2;
   mkVec (-0x1.1b06d1d200911p-2) (-0x1.b38880b4603e5p-1) 0x1.c9f25c5bfeddap-2;
   mkVec 0x1.727c9716ffb77p-1 (-0x1.0d2ca0da1530dp-1) 0x1.c9f25c5bfedd8p-2;
   mkVec 0x1.c9f25c5bfedd9p-1 0 (-0x1.c9f25c5bfeddcp-2);
   mkVec 0x1.1b06d1d200911p-2 0x1.b38880b4603e5p-1 (-0x1.c9f25c5bfeddap-2);
   mkVec (-0x1.727c9716ffb77p-1) 0x1.0d2ca0da1530dp-1 (-0x1.c9f25c5bfedd8p-2);
   mkVec (-0x1.727c9716ffb77p-1) (-0x1.0d2ca0da1530dp-1) (-0x1.c9f25c5bfedd8p-2);
   mkVec 0x1.1b06d1d200913p-2 (-0x1.b38880b4603e5p-1) (-0x1.c9f25c5bfeddap-2);
   mkVec 0 0 (-1)]%float.

Definition polar_vertices : list (list Vec) :=
  [[mkVec (-0x1.f6e9125e919f4p-2) (-0x1.6d62c51843605p-2) 0x1.96dcf37439ff0p-1;
    mkVec 0x1.80307ba95e81ep-3 (-0x1.279a74590331dp-1) 0x1.96dcf37439ff0p-1;
    mkVec 0x1.36d0d489e25eap-1 0 0x1.96dcf37439feep-1;
    mkVec 0x1.80307ba95e81ep-3 0x1.279a74590331dp-1 0x1.96dcf37439ff0p-1;
    mkVec (-0x1.f6e9125e919f4p-2) 0x1.6d62c51843605p-2 0x1.96dcf37439ff0p-1];
   [mkVec 0x1.f6e9125e919f6p-1 0 0x1.80307ba95e816p-3;
    mkVec 0x1.96dcf37439ff0p-1 0x1.279a74590331dp-1 (-0x1.80307ba95e81ep-3);
    mkVec 0x1.36d0d489e25e8p-2 0x1.de4bd6e524e1fp-1 0x1.80307ba95e816p-3;
    mkVec 0x1.80307ba95e81ep-3 0x1.279a74590331dp-1 0x1.96dcf37439ff0p-1;
    mkVec 0x1.36d0d489e25eap-1 0 0x1.96dcf37439feep-1];
   [mkVec (-0x1.f6e9125e919f4p-2) 0x1.6d62c51843605p-2 0x1.96dcf37439ff0p-1;
    mkVec 0x1.80307ba95e81ep-3 0x1.279a74590331dp-1 0x1.96dcf37439ff0p-1;
    mkVec 0x1.36d0d489e25e8p-2 0x1.de4bd6e524e1fp-1 0x1.80307ba95e816p-3;
    mkVec (-0x1.36d0d489e25eap-2) 0x1.de4bd6e524e1fp-1 (-0x1.80307ba95e819p-3);
    mkVec (-0x1.96dcf37439ff0p-1) 0x1.279a74590331dp-1 0x1.80307ba95e81ep-3];
   [mkVec (-0x1.f6e9125e919f4p-2) 0x1.6d62c51843605p-2 0x1.96dcf37439ff0p-1;
    mkVec (-0x1.96dcf37439ff0p-1) 0x1.279a74590331dp-1 0x1.80307ba95e81ep-3;
    mkVec (-0x1.f6e9125e919f6p-1) 0 (-0x1.80307ba95e816p-3);
    mkVec (-0x1.96dcf37439ff0p-1) (-0x1.279a74590331dp-1) 0x1.80307ba95e81ep-3;
    mkVec (-0x1.f6e9125e919f4p-2) (-0x1.6d62c51843605p-2) 0x1.96dcf37439ff0p-1];
   [mkVec (-0x1.f6e9125e919f4p-2) (-0x1.6d62c51843605p-2) 0x1.96dcf37439ff0p-1;
    mkVec (-0x1.96dcf37439ff0p-1) (-0x1.279a74590331dp-1) 0x1.80307ba95e81ep-3;
    mkVec (-0x1.36d0d489e25e8p-2) (-0x1.de4bd6e524e1fp-1) (-0x1.80307ba95e816p-3);
    mkVec 0x1.36d0d489e25eap-2 (-0x1.de4bd6e524e1fp-1) 0x1.80307ba95e819p-3;
    mkVec 0x1.80307ba95e81ep-3 (-0x1.279a74590331dp-1) 0x1.96dcf37439ff0p-1];
   [mkVec 0x1.36d0d489e25eap-1 0 0x1.96dcf37439feep-1;
    mkVec 0x1.80307ba95e81ep-3 (-0x1.279a74590331dp-1) 0x1.96dcf37439ff0p-1;
    mkVec 0x1.36d0d489e25eap-2 (-0x1.de4bd6e524e1fp-1) 0x1.80307ba95e819p-3;
    mkVec 0x1.96dcf37439ff0p-1 (-0x1.279a74590331dp-1) (-0x1.80307ba95e81ep-3);
    mkVec 0x1.f6e9125e919f6p-1 0 0x1.80307ba95e816p-3];
   [mkVec 0x1.f6e9125e919f4p-2 0x1.6d62c51843605p-2 (-0x1.96dcf37439ff0p-1);
    mkVec 0x1.96dcf37439ff0p-1 0x1.279a74590331dp-1 (-0x1.80307ba95e81ep-3);
    mkVec 0x1.f6e9125e919f6p-1 0 0x1.80307ba95e816p-3;
    mkVec 0x1.96dcf37439ff0p-1 (-0x1.279a74590331dp-1) (-0x1.80307ba95e81ep-3);
    mkVec 0x1.f6e9125e919f4p-2 (-0x1.6d62c51843605p-2) (-0x1.96dcf37439ff0p-1)];
   [mkVec (-0x1.80307ba95e81ep-3) 0x1.279a74590331dp-1 (-0x1.96dcf37439ff0p-1);
    mkVec (-0x1.36d0d489e25eap-2) 0x1.de4bd6e524e1fp-1 (-0x1.80307ba95e819p-3);
    mkVec 0x1.36d0d489e25e8p-2 0x1.de4bd6e524e1fp-1 0x1.80307ba95e816p-3;
    mkVec 0x1.96dcf37439ff0p-1 0x1.279a74590331dp-1 (-0x1.80307ba95e81ep-3);
    mkVec 0x1.f6e9125e919f4p-2 0x1.6d62c51843605p-2 (-0x1.96dcf37439ff0p-1)];
   [mkVec (-0x1.f6e9125e919f6p-1) 0 (-0x1.80307ba95e816p-3);
    mkVec (-0x1.96dcf37439ff0p-1) 0x1.279a74590331dp-1 0x1.80307ba95e81ep-3;
    mkVec (-0x1.36d0d489e25eap-2) 0x1.de4bd6e524e1fp-1 (-0x1.80307ba95e819p-3);
    mkVec (-0x1.80307ba95e81ep-3) 0x1.279a74590331dp-1 (-0x1.96dcf37439ff0p-1);
    mkVec (-0x1.36d0d489e25eap-1) 0 (-0x1.96dcf37439feep-1)];
   [mkVec (-0x1.f6e9125e919f6p-1) 0 (-0x1.80307ba95e816p-3);
    mkVec (-0x1.36d0d489e25eap-1) 0 (-0x1.96dcf37439feep-1);
    mkVec (-0x1.80307ba95e81ep-3) (-0x1.279a74590331dp-1) (-0x1.96dcf37439ff0p-1);
    mkVec (-0x1.36d0d489e25e8p-2) (-0x1.de4bd6e524e1fp-1) (-0x1.80307ba95e816p-3);
    mkVec (-0x1.96dcf37439ff0p-1) (-0x1.279a74590331dp-1) 0x1.80307ba95e81ep-3];
   [mkVec 0x1.f6e9125e919f4p-2 (-0x1.6d62c51843605p-2) (-0x1.96dcf37439ff0p-1);
    mkVec 0x1.96dcf37439ff0p-1 (-0x1.279a74590331dp-1) (-0x1.80307ba95e81ep-3);
    mkVec 0x1.36d0d489e25eap-2 (-0x1.de4bd6e524e1fp-1) 0x1.80307ba95e819p-3;
    mkVec (-0x1.36d0d489e25e8p-2) (-0x1.de4bd6e524e1fp-1) (-0x1.80307ba95e816p-3);
    mkVec (-0x1.80307ba95e81ep-3) (-0x1.279a74590331dp-1) (-0x1.96dcf37439ff0p-1)];
   [mkVec 0x1.f6e9125e919f4p-2 (-0x1.6d62c51843605p-2) (-0x1.96dcf37439ff0p-1);
    mkVec (-0x1.80307ba95e81ep-3) (-0x1.279a74590331dp-1) (-0x1.96dcf37439ff0p-1);
    mkVec (-0x1.36d0d489e25eap-1) 0 (-0x1.96dcf37439feep-1);
    mkVec (-0x1.80307ba95e81ep-3) 0x1.279a74590331dp-1 (-0x1.96dcf37439ff0p-1);
    mkVec 0x1.f6e9125e919f4p-2 0x1.6d62c51843605p-2 (-0x1.96dcf37439ff0p-1)]]%float.

Definition offset_centers : list Vec :=
  [mkVec 0x1.36d0d489e25e9p-1 0 0x1.96dcf37439ff1p-1;
   mkVec (-0x1.36d0d489e25ecp-2) 0x1.0d2ca0da1530dp-1 0x1.96dcf37439ff0p-1;
   mkVec (-0x1.36d0d489e25ecp-2) (-0x1.0d2ca0da1530dp-1) 0x1.96dcf37439ff0p-1;
   mkVec 0x1.f6e9125e919f6p-2 0x1.b38880b4603e5p-1 0x1.80307ba95e81cp-3;
   mkVec (-0x1.f6e9125e919f7p-1) 0 0x1.80307ba95e814p-3;
   mkVec 0x1.f6e9125e919f6p-2 (-0x1.b38880b4603e5p-1) 0x1.80307ba95e81cp-3;
   mkVec 0x1.f6e9125e919f7p-1 0 (-0x1.80307ba95e814p-3);
   mkVec (-0x1.f6e9125e919f6p-2) 0x1.b38880b4603e5p-1 (-0x1.80307ba95e81cp-3);
   mkVec (-0x1.f6e9125e919f6p-2) (-0x1.b38880b4603e5p-1) (-0x1.80307ba95e81cp-3);
   mkVec 0x1.36d0d489e25ecp-2 0x1.0d2ca0da1530dp-1 (-0x1.96dcf37439ff0p-1);
   mkVec (-0x1.36d0d489e25e9p-1) 0 (-0x1.96dcf37439ff1p-1);
   mkVec 0x1.36d0d489e25ecp-2 (-0x1.0d2ca0da1530dp-1) (-0x1.96dcf37439ff0p-1)]%float.

Definition offset_vertices : list (list Vec) :=
  [[mkVec 0 0 1;
    mkVec 0x1.5555555555554p-2 (-0x1.279a74590331dp-1) 0x1.7d9f4cf754636p-1;
    mkVec 0x1.becfa67baa31ap-1 (-0x1.6d62c51843605p-2) 0x1.5555555555557p-2;
    mkVec 0x1.becfa67baa31ap-1 0x1.6d62c51843605p-2 0x1.5555555555557p-2;
    mkVec 0x1.5555555555554p-2 0x1.279a74590331dp-1 0x1.7d9f4cf754636p-1];
   [mkVec 0 0 1;
    mkVec 0x1.5555555555554p-2 0x1.279a74590331dp-1 0x1.7d9f4cf754636p-1;
    mkVec (-0x1.04c1661157397p-3) 0x1.de4bd6e524e1fp-1 0x1.5555555555554p-2;
    mkVec (-0x1.7d9f4cf754636p-1) 0x1.279a74590331dp-1 0x1.5555555555554p-2;
    mkVec (-0x1.5555555555556p-1) 0 0x1.7d9f4cf754634p-1];
   [mkVec (-0x1.5555555555556p-1) 0 0x1.7d9f4cf754634p-1;
    mkVec (-0x1.7d9f4cf754636p-1) (-0x1.279a74590331dp-1) 0x1.5555555555554p-2;
    mkVec (-0x1.04c1661157397p-3) (-0x1.de4bd6e524e1fp-1) 0x1.5555555555554p-2;
    mkVec 0x1.5555555555554p-2 (-0x1.279a74590331dp-1) 0x1.7d9f4cf754636p-1;
    mkVec 0 0 1];
   [mkVec 0x1.5555555555554p-2 0x1.279a74590331dp-1 0x1.7d9f4cf754636p-1;
    mkVec 0x1.becfa67baa31ap-1 0x1.6d62c51843605p-2 0x1.5555555555557p-2;
    mkVec 0x1.7d9f4cf754636p-1 0x1.279a74590331dp-1 (-0x1.5555555555554p-2);
    mkVec 0x1.04c1661157397p-3 0x1.de4bd6e524e1fp-1 (-0x1.5555555555554p-2);
    mkVec (-0x1.04c1661157397p-3) 0x1.de4bd6e524e1fp-1 0x1.5555555555554p-2];
   [mkVec (-0x1.5555555555556p-1) 0 0x1.7d9f4cf754634p-1;
    mkVec (-0x1.7d9f4cf754636p-1) 0x1.279a74590331dp-1 0x1.5555555555554p-2;
    mkVec (-0x1.becfa67baa31ap-1) 0x1.6d62c51843605p-2 (-0x1.5555555555557p-2);
    mkVec (-0x1.becfa67baa31ap-1) (-0x1.6d62c51843605p-2) (-0x1.5555555555557p-2);
    mkVec (-0x1.7d9f4cf754636p-1) (-0x1.279a74590331dp-1) 0x1.5555555555554p-2];
   [mkVec (-0x1.04c1661157397p-3) (-0x1.de4bd6e524e1fp-1) 0x1.5555555555554p-2;
    mkVec 0x1.04c1661157397p-3 (-0x1.de4bd6e524e1fp-1) (-0x1.5555555555554p-2);
    mkVec 0x1.7d9f4cf754636p-1 (-0x1.279a74590331dp-1) (-0x1.5555555555554p-2);
    mkVec 0x1.becfa67baa31ap-1 (-0x1.6d62c51843605p-2) 0x1.5555555555557p-2;
    mkVec 0x1.5555555555554p-2 (-0x1.279a74590331dp-1) 0x1.7d9f4cf754636p-1];
   [mkVec 0x1.5555555555556p-1 0 (-0x1.7d9f4cf754634p-1);
    mkVec 0x1.7d9f4cf754636p-1 0x1.279a74590331dp-1 (-0x1.5555555555554p-2);
    mkVec 0x1.becfa67baa31ap-1 0x1.6d62c51843605p-2 0x1.5555555555557p-2;
    mkVec 0x1.becfa67baa31ap-1 (-0x1.6d62c51843605p-2) 0x1.5555555555557p-2;
    mkVec 0x1.7d9f4cf754636p-1 (-0x1.279a74590331dp-1) (-0x1.5555555555554p-2)];
   [mkVec 0x1.04c1661157397p-3 0x1.de4bd6e524e1fp-1 (-0x1.5555555555554p-2);
    mkVec (-0x1.5555555555554p-2) 0x1.279a74590331dp-1 (-0x1.7d9f4cf754636p-1);
    mkVec (-0x1.becfa67baa31ap-1) 0x1.6d62c51843605p-2 (-0x1.5555555555557p-2);
    mkVec (-0x1.7d9f4cf754636p-1) 0x1.279a74590331dp-1 0x1.5555555555554p-2;
    mkVec (-0x1.04c1661157397p-3) 0x1.de4bd6e524e1fp-1 0x1.5555555555554p-2];
   [mkVec (-0x1.04c1661157397p-3) (-0x1.de4bd6e524e1fp-1) 0x1.5555555555554p-2;
    mkVec (-0x1.7d9f4cf754636p-1) (-0x1.279a74590331dp-1) 0x1.5555555555554p-2;
    mkVec (-0x1.becfa67baa31ap-1) (-0x1.6d62c51843605p-2) (-0x1.5555555555557p-2);
    mkVec (-0x1.5555555555554p-2) (-0x1.279a74590331dp-1) (-0x1.7d9f4cf754636p-1);
    mkVec 0x1.04c1661157397p-3 (-0x1.de4bd6e524e1fp-1) (-0x1.5555555555554p-2)];
   [mkVec 0x1.5555555555556p-1 0 (-0x1.7d9f4cf754634p-1);
    mkVec 0 0 (-1);
    mkVec (-0x1.5555555555554p-2) 0x1.279a74590331dp-1 (-0x1.7d9f4cf754636p-1);
    mkVec 0x1.04c1661157397p-3 0x1.de4bd6e524e1fp-1 (-0x1.5555555555554p-2);
    mkVec 0x1.7d9f4cf754636p-1 0x1.279a74590331dp-1 (-0x1.5555555555554p-2)];
   [mkVec 0 0 (-1);
    mkVec (-0x1.5555555555554p-2) (-0x1.279a74590331dp-1) (-0x1.7d9f4cf754636p-1);
    mkVec (-0x1.becfa67baa31ap-1) (-0x1.6d62c51843605p-2) (-0x1.5555555555557p-2);
    mkVec (-0x1.becfa67baa31ap-1) 0x1.6d62c51843605p-2 (-0x1.5555555555557p-2);
    mkVec (-0x1.5555555555554p-2) 0x1.279a74590331dp-1 (-0x1.7d9f4cf754636p-1)];
   [mkVec 0x1.7d9f4cf754636p-1 (-0x1.279a74590331dp-1) (-0x1.5555555555554p-2);
    mkVec 0x1.04c1661157397p-3 (-0x1.de4bd6e524e1fp-1) (-0x1.5555555555554p-2);
    mkVec (-0x1.5555555555554p-2) (-0x1.279a74590331dp-1) (-0x1.7d9f4cf754636p-1);
    mkVec 0 0 (-1);
    mkVec 0x1.5555555555556p-1 0 (-0x1.7d9f4cf754634p-1)]]%float.

Definition nowhere : Vec := mkVec nan nan nan.

Definition faceVec (withFacesOnPoles : bool) (id : nat) : Vec :=
  nth id (if withFacesOnPoles then polar_centers else offset_centers) nowhere.

Definition faceVertices (withFacesOnPoles : bool) (id : nat) : list Vec :=
  nth id (if withFacesOnPoles then polar_vertices else offset_vertices) [].

End AfwStandIn.

Section DodecaSkyMap.

(** *** The [lsst.afw] capabilities the module consumes *)

(** [afwGeom.Angle]: built from a value and a unit, read back in radians. *)
Context {Angle : Type}.
Variable mkAngle : float -> AngleUnit -> Angle.
Variable asRadians : Angle -> float.

(** [afwCoord]: [makeCoord(ICRS, lon, lat)], [makeCoord(ICRS, Point3D)] of a vector,
    [coord.getLongitude()] and [coord.toIcrs().getVector()]. *)
Context {Coord : Type}.
Variable makeCoord : Angle -> Angle -> Coord.
Variable makeCoordVec : Vec -> Coord.
Variable getLongitude : Coord -> Angle.
Variable icrsVector : Coord -> Vec.

(** The projection factory: [makeWcs(center, pixelScale, projection)]; it
    has no transform for a projection code it does not know. *)
Context {Wcs : Type}.
Variable makeWcs : Coord -> Angle -> string -> option Wcs.

(** The geometry tables of the dodecahedron, for each orientation:
    the center of face [id] and the vertices of face [id]. *)
Variable faceVec : bool -> nat -> Vec.
Variable faceVertices : bool -> nat -> list Vec.

(** *** Module defaults *)

Definition _DefaultTractOverlap : Angle := mkAngle 3.5 degrees.
Definition _DefaultPatchBorder : Z := 250.
Definition _DefaultPlateScale : Angle := mkAngle (10.0 / 50.0) arcseconds.
Definition _DefaultPatchInnerDimensions : pytuple := [4000; 4000].

(** *** _coordFromVec *)

Definition _coordFromVec (vec : Vec) (defRA : option Angle) : result Coord :=
  if (abs (vx vec) <? _TinyFloat)%float && (abs (vy vec) <? _TinyFloat)%float then
    match defRA with
    | None => py_raise "RuntimeError" "At pole and defRA==None"
    | Some ra =>
        let dec := if (0 <? vz vec)%float then 90.0%float else (-90.0)%float in
        Ok (makeCoord ra (mkAngle dec degrees))
    end
  else Ok (makeCoordVec vec).

(** *** detail.Dodecahedron *)

(** Modelled from the spec: [detail.Dodecahedron] (the source of the module is not
    available).  Section 4.2: the geometry is a pure function of the
    [facesOnPoles] flag; twelve faces, numbered 0 to 11;
    [faceContaining] returns the face whose center has the largest dot
    product with the query vector, the lowest id on ties. *)
Record Dodecahedron : Type := mkDodecahedron { withFacesOnPoles : bool }.

Definition getFaceCtr (d : Dodecahedron) (id : nat) : Vec :=
  faceVec (withFacesOnPoles d) id.

Definition getVertices (d : Dodecahedron) (id : nat) : list Vec :=
  faceVertices (withFacesOnPoles d) id.

Definition getFaceInd (d : Dodecahedron) (vec : Vec) : nat :=
  argmax (map (fun id => dot (getFaceCtr d id) vec) (seq 0 12)).

Definition getWithFacesOnPoles (d : Dodecahedron) : bool := withFacesOnPoles d.

(** *** detail.WcsFactory and TractInfo *)

(** Modelled from the spec: [detail.WcsFactory] (source not available).
    Section 6: the factory is made of a pixel scale and a projection code
    and builds the transform centered on a coordinate. *)
Record WcsFactory : Type := mkWcsFactory {
  wf_pixelScale : Angle;
  wf_projection : string }.

Definition WcsFactory_makeWcs (f : WcsFactory) (ctr : Coord) : result Wcs :=
  match makeWcs ctr (wf_pixelScale f) (wf_projection f) with
  | Some w => Ok w
  | None => Raise (ConfigurationError "invalid projection code")
  end.

(** Modelled from the spec: [TractInfo] (the source, [tractInfo.py], is not
    available).  Sections 3 and 4.4: a tract records its id, its center and
    vertices, the patch dimensions and border, the overlap, and the
    transform that construction obtains first from the projection
    factory.  The pixel bounding box and the patch grid are left out. *)
Record TractInfo : Type := mkTractInfo {
  tract_id : nat;
  tract_patchInnerDimensions : Z * Z;
  tract_patchBorder : Z;
  tract_ctrCoord : Coord;
  tract_vertexCoordList : list Coord;
  tract_tractOverlap : Angle;
  tract_wcs : Wcs }.

Definition TractInfo___init__ (id : nat) (patchInnerDimensions : Z * Z)
    (patchBorder : Z) (ctrCoord : Coord) (vertexCoordList : list Coord)
    (tractOverlap : Angle) (wcsFactory : WcsFactory) : result TractInfo :=
  let* wcs := WcsFactory_makeWcs wcsFactory ctrCoord in
  Ok (mkTractInfo id patchInnerDimensions patchBorder ctrCoord
        vertexCoordList tractOverlap wcs).

(** *** BaseSkyMap *)

(** Modelled from the spec: [BaseSkyMap] (the source, [baseSkyMap.py], is not
    available).  Section 3: the configuration (patch dimensions, border,
    overlap, pixel scale, projection code) and the ordered tract list. *)
Record BaseSkyMap : Type := mkBaseSkyMap {
  _patchInnerDimensions : Z * Z;
  _patchBorder : Z;
  _tractOverlap : Angle;
  _pixelScale : Angle;
  _projection : string;
  _wcsFactory : WcsFactory;
  _tractInfoList : list TractInfo }.

(** Modelled from the spec: [BaseSkyMap.__init__].  Sections 4.3, 6 and
    7: the patch inner dimensions are two positive integers and the
    border is a non-negative integer, anything else fails with a
    ConfigurationError; the configuration is stored and the tract list
    starts empty. *)
Definition BaseSkyMap___init__ (patchInnerDimensions : pytuple) (patchBorder : Z)
    (tractOverlap pixelScale : Angle) (projection : string) : result BaseSkyMap :=
  match patchInnerDimensions with
  | [w; h] =>
      if (w <=? 0) || (h <=? 0) then
        Raise (ConfigurationError "patch inner dimensions must be positive")
      else if patchBorder <? 0 then
        Raise (ConfigurationError "patch border must not be negative")
      else
        Ok {| _patchInnerDimensions := (w, h);
              _patchBorder := patchBorder;
              _tractOverlap := tractOverlap;
              _pixelScale := pixelScale;
              _projection := projection;
              _wcsFactory := mkWcsFactory pixelScale projection;
              _tractInfoList := [] |}
  | _ => Raise (TypeError "patchInnerDimensions must be two ints")
  end.

(** Modelled from the spec: the accessors and the sequence protocol of
    [BaseSkyMap].  Section 4.5: [skymap[i]] is the i-th tract in
    construction order and [len(skymap)] the number of tracts; indexing
    follows Python lists (a negative index counts from the end, an index
    out of range raises). *)
Definition getPatchInnerDimensions (self : BaseSkyMap) := _patchInnerDimensions self.
Definition getPatchBorder (self : BaseSkyMap) := _patchBorder self.
Definition getTractOverlap (self : BaseSkyMap) := _tractOverlap self.
Definition getPixelScale (self : BaseSkyMap) := _pixelScale self.
Definition getProjection (self : BaseSkyMap) := _projection self.

Definition __len__ (self : BaseSkyMap) : Z :=
  Z.of_nat (length (_tractInfoList self)).

Definition __getitem__ (self : BaseSkyMap) (ind : Z) : result TractInfo :=
  let n := __len__ self in
  let i := if ind <? 0 then ind + n else ind in
  if (i <? 0) || (n <=? i) then Raise (IndexError "list index out of range")
  else
    match _tractInfoList self !! Z.to_nat i with
    | Some t => Ok t
    | None => Raise (IndexError "list index out of range")
    end.

(** Assignment to [self._tractInfoList], and [self._tractInfoList.append(t)]. *)
Definition set_tractInfoList (self : BaseSkyMap) (l : list TractInfo) : BaseSkyMap :=
  {| _patchInnerDimensions := _patchInnerDimensions self;
     _patchBorder := _patchBorder self;
     _tractOverlap := _tractOverlap self;
     _pixelScale := _pixelScale self;
     _projection := _projection self;
     _wcsFactory := _wcsFactory self;
     _tractInfoList := l |}.

Definition append_tract (self : BaseSkyMap) (t : TractInfo) : BaseSkyMap :=
  set_tractInfoList self (_tractInfoList self ++ [t]).

(** *** DodecaSkyMap *)

(** A [DodecaSkyMap] instance: the attributes of its base class and its
    own two. *)
Record DodecaSkyMap : Type := mkDodecaSkyMap {
  _version : pytuple;
  _dodecahedron : Dodecahedron;
  base :> BaseSkyMap }.

(** The arguments of [DodecaSkyMap.__init__]. *)
Record InitArgs : Type := mkInitArgs {
  patchInnerDimensions : pytuple;
  patchBorder : Z;
  tractOverlap : Angle;
  pixelScale : Angle;
  projection : string;
  withTractsOnPoles : bool }.

Definition default_args : InitArgs :=
  {| patchInnerDimensions := _DefaultPatchInnerDimensions;
     patchBorder := _DefaultPatchBorder;
     tractOverlap := _DefaultTractOverlap;
     pixelScale := _DefaultPlateScale;
     projection := "STG";
     withTractsOnPoles := false |}.

(** The body of the loop [for id in range(12)]: the tract of face [id]. *)
Definition make_tract (d : Dodecahedron) (self : BaseSkyMap) (id : nat) : result TractInfo :=
  let tractVec := getFaceCtr d id in
  let* tractCoord := _coordFromVec tractVec (Some (mkAngle 0 radians)) in
  let tractRA := getLongitude tractCoord in
  let vertexVecList := getVertices d id in
  let* vertexCoordList := mapM (fun vec => _coordFromVec vec (Some tractRA)) vertexVecList in
  TractInfo___init__ id (_patchInnerDimensions self) (_patchBorder self)
    tractCoord vertexCoordList (getTractOverlap self) (_wcsFactory self).

(** The loop itself, over the ids still to do: each tract is appended to
    [self._tractInfoList]; an exception leaves the loop. *)
Fixpoint init_loop (d : Dodecahedron) (self : BaseSkyMap) (ids : list nat) : result BaseSkyMap :=
  match ids with
  | [] => Ok self
  | id :: ids' =>
      let* t := make_tract d self id in
      init_loop d (append_tract self t) ids'
  end.

Definition __init__ (a : InitArgs) : result DodecaSkyMap :=
  let version := [1; 0] in
  let dodecahedron := mkDodecahedron (withTractsOnPoles a) in
  let* self := BaseSkyMap___init__ (patchInnerDimensions a) (patchBorder a)
                 (tractOverlap a) (pixelScale a) (projection a) in
  let* self := init_loop dodecahedron self (seq 0 12) in
  Ok {| _version := version; _dodecahedron := dodecahedron; base := self |}.

Definition getVersion (self : DodecaSkyMap) : pytuple := _version self.

Definition getWithTractsOnPoles (self : DodecaSkyMap) : bool :=
  getWithFacesOnPoles (_dodecahedron self).

Definition findTract (self : DodecaSkyMap) (coord : Coord) : result TractInfo :=
  __getitem__ self (Z.of_nat (getFaceInd (_dodecahedron self) (icrsVector coord))).

(** *** Pickle support *)

(** The values a pickled state holds. *)
Inductive pyval : Type :=
| PInt (n : Z)
| PFloat (x : float)
| PStr (s : string)
| PBool (b : bool)
| PTuple (t : pytuple)
| PAngle (a : Angle).

(** [d.pop(key)] and [d[key]]: a missing key raises [KeyError]. *)
Definition dict_pop (key : string) (d : gmap string pyval) : result (pyval * gmap string pyval) :=
  match d !! key with
  | Some v => Ok (v, delete key d)
  | None => Raise (KeyError key)
  end.

Definition dict_getitem (key : string) (d : gmap string pyval) : result pyval :=
  match d !! key with
  | Some v => Ok v
  | None => Raise (KeyError key)
  end.

(** [a >= b]: tuples are ordered lexicographically; values of other types
    are not ordered against a tuple. *)
Definition py_ge (a b : pyval) : result bool :=
  match a, b with
  | PTuple x, PTuple y => Ok (tuple_ge x y)
  | _, _ => Raise (TypeError "'>=' not supported between these instances")
  end.

(** [str(v)] for the values compared with a tuple without an error. *)
Definition pyval_str (v : pyval) : string :=
  match v with
  | PTuple t => tuple_repr t
  | _ => ""
  end.

(** [afwGeom.Angle(value, units)] on a Python value: a number is needed. *)
Definition Angle_of_value (v : pyval) (units : AngleUnit) : result Angle :=
  match v with
  | PFloat x => Ok (mkAngle x units)
  | PInt n => Ok (mkAngle (float_of_int n) units)
  | PBool b => Ok (mkAngle (if b then 1%float else 0%float) units)
  | _ => Raise (TypeError "Angle: a number is required")
  end.

Definition __getstate__ (self : DodecaSkyMap) : gmap string pyval :=
  <["version" := PTuple (_version self)]>
  (<["patchInnerDimensions" :=
       PTuple [fst (getPatchInnerDimensions self); snd (getPatchInnerDimensions self)]]>
  (<["patchBorder" := PInt (getPatchBorder self)]>
  (<["tractOverlap" := PFloat (asRadians (getTractOverlap self))]>
  (<["pixelScale" := PFloat (asRadians (getPixelScale self))]>
  (<["projection" := PStr (getProjection self)]>
  (<["withTractsOnPoles" := PBool (getWithTractsOnPoles self)]> ∅)))))).

(** The call of [self.__init__] with the items of [argDict] as keywords.  A key that is not a
    parameter raises [TypeError]; a parameter without a key takes its
    default.  A value of the wrong type raises [TypeError] here (Python
    raises where the value is consumed). *)
Definition init_params : list string :=
  ["patchInnerDimensions"; "patchBorder"; "tractOverlap"; "pixelScale";
   "projection"; "withTractsOnPoles"].

Definition kwarg {A} (name : string) (conv : pyval -> option A) (default : A)
    (kw : gmap string pyval) : result A :=
  match kw !! name with
  | None => Ok default
  | Some v =>
      match conv v with
      | Some a => Ok a
      | None => Raise (TypeError ("bad value for argument " +:+ name))
      end
  end.

Definition as_tuple (v : pyval) : option pytuple :=
  match v with PTuple t => Some t | _ => None end.
Definition as_int (v : pyval) : option Z :=
  match v with PInt n => Some n | PBool b => Some (if b then 1 else 0) | _ => None end.
Definition as_angle (v : pyval) : option Angle :=
  match v with PAngle a => Some a | _ => None end.
Definition as_str (v : pyval) : option string :=
  match v with PStr s => Some s | _ => None end.
Definition as_bool (v : pyval) : option bool :=
  match v with PBool b => Some b | PInt n => Some (negb (n =? 0)) | _ => None end.

Definition bind_kwargs (kw : gmap string pyval) : result InitArgs :=
  match map_to_list (foldr delete kw init_params) with
  | (k, _) :: _ =>
      Raise (TypeError ("__init__() got an unexpected keyword argument " +:+ k))
  | [] =>
      let* dims := kwarg "patchInnerDimensions" as_tuple _DefaultPatchInnerDimensions kw in
      let* border := kwarg "patchBorder" as_int _DefaultPatchBorder kw in
      let* overlap := kwarg "tractOverlap" as_angle _DefaultTractOverlap kw in
      let* scale := kwarg "pixelScale" as_angle _DefaultPlateScale kw in
      let* proj := kwarg "projection" as_str "STG" kw in
      let* poles := kwarg "withTractsOnPoles" as_bool false kw in
      Ok (mkInitArgs dims border overlap scale proj poles)
  end.

Definition call___init__ (kw : gmap string pyval) : result DodecaSkyMap :=
  let* a := bind_kwargs kw in
  __init__ a.

(** The loop [for angleArg in ("tractOverlap", "pixelScale")]. *)
Fixpoint angle_loop (argDict : gmap string pyval) (names : list string)
    : result (gmap string pyval) :=
  match names with
  | [] => Ok argDict
  | angleArg :: names' =>
      let* v := dict_getitem angleArg argDict in
      let* a := Angle_of_value v radians in
      angle_loop (<[angleArg := PAngle a]> argDict) names'
  end.

(** [__setstate__].  The exception is raised under the name [runtimeError],
    as the source has it.  The message is ["Version = %s >= (2,0); cannot
    unpickle" % (version,)]. *)
Definition __setstate__ (argDict : gmap string pyval) : result DodecaSkyMap :=
  let* popped := dict_pop "version" argDict in
  let version := fst popped in
  let argDict := snd popped in
  let* too_new := py_ge version (PTuple [2; 0]) in
  if too_new : bool then
    py_raise "runtimeError"
      ("Version = " +:+ pyval_str version +:+ " >= (2,0); cannot unpickle")
  else
    let* argDict := angle_loop argDict ["tractOverlap"; "pixelScale"] in
    call___init__ argDict.

(** *** Reading aids for the statements *)


(** *** [__setstate__] and the dictionary it is given

    [__setstate__] changes [argDict] in place: [pop] removes the version
    and the loop assigns the two angles; the keyword call only reads it.
    The caller holds the same dictionary, so the functions below return,
    beside the result, the dictionary as the call leaves it, also when the
    call raises. *)

Fixpoint angle_loop_run (argDict : gmap string pyval) (names : list string)
    : result unit * gmap string pyval :=
  match names with
  | [] => (Ok tt, argDict)
  | angleArg :: names' =>
      match dict_getitem angleArg argDict with
      | Raise e => (Raise e, argDict)
      | Ok v =>
          match Angle_of_value v radians with
          | Raise e => (Raise e, argDict)
          | Ok a => angle_loop_run (<[angleArg := PAngle a]> argDict) names'
          end
      end
  end.

Definition __setstate___run (argDict : gmap string pyval)
    : result DodecaSkyMap * gmap string pyval :=
  match dict_pop "version" argDict with
  | Raise e => (Raise e, argDict)
  | Ok popped =>
      let version := fst popped in
      let argDict := snd popped in
      match py_ge version (PTuple [2; 0]) with
      | Raise e => (Raise e, argDict)
      | Ok true =>
          (py_raise "runtimeError"
             ("Version = " +:+ pyval_str version +:+ " >= (2,0); cannot unpickle"),
           argDict)
      | Ok false =>
          match angle_loop_run argDict ["tractOverlap"; "pixelScale"] with
          | (Raise e, argDict) => (Raise e, argDict)
          | (Ok _, argDict) => (call___init__ argDict, argDict)
          end
      end
  end.

(** ** Properties *)

(** *** The embedding on small inputs *)

Example tiny_is_smallest_normal :
  Prim2SF _TinyFloat = S754_finite false 4503599627370496 (-1074).
Proof. reflexivity. Qed.

Example tuple_order :
  tuple_ge [2; 0] [2; 0] = true /\ tuple_ge [2; 0; 0] [2; 0] = true /\
  tuple_ge [3] [2; 0] = true /\ tuple_ge [1; 9] [2; 0] = false /\
  tuple_ge [2] [2; 0] = false.
Proof. repeat split. Qed.

Example tuple_repr_pair : tuple_repr [2; 1] = "(2, 1)".
Proof. reflexivity. Qed.

Example raise_known_name :
  @py_raise unit "RuntimeError" "m" = Raise (RuntimeError "m").
Proof. reflexivity. Qed.

Example raise_unknown_name :
  @py_raise unit "runtimeError" "m" = Raise (NameError "runtimeError").
Proof. reflexivity. Qed.

Example argmax_first_on_ties : argmax [1; 3; 3; 2]%float = 1%nat.
Proof. reflexivity. Qed.

(** *** Comparisons of binary64 values *)

Lemma SFleb_SFltb_false (a b : spec_float) :
  SFleb a b = true -> SFltb b a = false.
Proof.
  unfold SFleb, SFltb.
  destruct a as [sa| sa| |sa ma ea], b as [sb| sb| |sb mb eb]; simpl;
    try destruct sa; try destruct sb; try discriminate; try reflexivity;
    change (Pos.compare_cont Eq ma mb) with (ma ?= mb)%positive;
    change (Pos.compare_cont Eq mb ma) with (mb ?= ma)%positive;
    destruct (Z.compare_spec ea eb), (Z.compare_spec eb ea); try lia;
    try discriminate; try reflexivity;
    destruct (Pos.compare_spec ma mb), (Pos.compare_spec mb ma); try lia;
    simpl; try discriminate; reflexivity.
Qed.

(** A value at or above a bound is not below it (this fails for no float:
    a NaN is neither). *)
Lemma leb_ltb_false (x y : float) :
  (x <=? y)%float = true -> (y <? x)%float = false.
Proof.
  rewrite leb_spec, ltb_spec. apply SFleb_SFltb_false.
Qed.

(** *** The pole policy of the conversion *)

Lemma coordFromVec_off_pole (vec : Vec) (defRA : option Angle) :
  (abs (vx vec) <? _TinyFloat)%float && (abs (vy vec) <? _TinyFloat)%float = false ->
  _coordFromVec vec defRA = Ok (makeCoordVec vec).
Proof.
  intros H. unfold _coordFromVec. rewrite H. reflexivity.
Qed.

Lemma coordFromVec_default (vec : Vec) (ra : Angle) :
  exists c, _coordFromVec vec (Some ra) = Ok c.
Proof.
  unfold _coordFromVec.
  destruct (_ && _); eexists; reflexivity.
Qed.

(** C2: near a pole (both equatorial components below the epsilon in
    absolute value) the conversion raises exactly when no default longitude
    is given, and with a default it returns that longitude with latitude
    +90 degrees for a positive polar component and -90 degrees otherwise;
    with an equatorial component at or above the epsilon it returns the
    coordinate of the vector whatever the default is. *)
Theorem coordFromVec_pole_policy (vec : Vec) (defRA : option Angle) :
  ((abs (vx vec) <? _TinyFloat)%float = true ->
   (abs (vy vec) <? _TinyFloat)%float = true ->
   ((exists e, _coordFromVec vec defRA = Raise e) <-> defRA = None) /\
   (defRA = None ->
    _coordFromVec vec defRA = Raise (RuntimeError "At pole and defRA==None")) /\
   (forall ra, defRA = Some ra ->
    _coordFromVec vec defRA =
      Ok (makeCoord ra
            (mkAngle (if (0 <? vz vec)%float then 90.0%float else (-90.0)%float) degrees))))
  /\
  ((_TinyFloat <=? abs (vx vec))%float = true \/
   (_TinyFloat <=? abs (vy vec))%float = true ->
   _coordFromVec vec defRA = Ok (makeCoordVec vec)).
Proof.
  split.
  - intros Hx Hy. unfold _coordFromVec. rewrite Hx, Hy. simpl.
    destruct defRA as [ra|].
    + split; [|split].
      * split; [intros [e He]; discriminate | discriminate].
      * discriminate.
      * intros ra' [= <-]. reflexivity.
    + split; [|split].
      * split; [reflexivity | intros _; eexists; reflexivity].
      * reflexivity.
      * discriminate.
  - intros H. apply coordFromVec_off_pole.
    destruct H as [H | H]; apply leb_ltb_false in H; rewrite H.
    + reflexivity.
    + apply andb_false_r.
Qed.

(** *** The face-membership test *)

Lemma argmax_from_lt (l : list float) :
  forall best bestv i, (best < i)%nat ->
    (argmax_from best bestv i l < i + length l)%nat.
Proof.
  induction l as [|v l IH]; intros best bestv i Hlt; simpl.
  - lia.
  - destruct (bestv <? v)%float.
    + specialize (IH i v (S i)). lia.
    + specialize (IH best bestv (S i)). lia.
Qed.

Lemma argmax_lt (l : list float) :
  l <> [] -> (argmax l < length l)%nat.
Proof.
  destruct l as [|v l]; [congruence|]. intros _. simpl.
  pose proof (argmax_from_lt l 0%nat v 1%nat). lia.
Qed.

Lemma getFaceInd_lt (d : Dodecahedron) (vec : Vec) :
  (getFaceInd d vec < 12)%nat.
Proof.
  unfold getFaceInd.
  pose proof (argmax_lt (map (fun id => dot (getFaceCtr d id) vec) (seq 0 12))) as H.
  rewrite length_map, length_seq in H. apply H. discriminate.
Qed.

(** *** Construction *)

Ltac bind_inv H :=
  match type of H with
  | rbind ?m _ = Ok _ =>
      let E := fresh "E" in
      destruct m eqn:E; cbn [rbind] in H; [|discriminate H]
  end.

Lemma make_tract_append (d : Dodecahedron) (self : BaseSkyMap) (t : TractInfo) (id : nat) :
  make_tract d (append_tract self t) id = make_tract d self id.
Proof. reflexivity. Qed.

Lemma make_tract_id (d : Dodecahedron) (self : BaseSkyMap) (id : nat) (t : TractInfo) :
  make_tract d self id = Ok t -> tract_id t = id.
Proof.
  unfold make_tract, TractInfo___init__. intros H.
  bind_inv H. bind_inv H. bind_inv H. injection H as <-. reflexivity.
Qed.

(** The loop appends, in order, the tract of each id it runs over, and
    changes nothing else. *)
Lemma init_loop_spec (d : Dodecahedron) (ids : list nat) :
  forall self self', init_loop d self ids = Ok self' ->
    exists ts, Forall2 (fun id t => make_tract d self id = Ok t) ids ts /\
      self' = set_tractInfoList self (_tractInfoList self ++ ts).
Proof.
  induction ids as [|id ids IH]; intros self self' H; simpl in H.
  - injection H as <-. exists []. split; [constructor|].
    destruct self; unfold set_tractInfoList; simpl. rewrite app_nil_r. reflexivity.
  - bind_inv H. apply IH in H as (ts & HF & ->).
    exists (a :: ts). split.
    + constructor; [assumption|].
      eapply Forall2_impl; [exact HF|]. intros x y Hxy. exact Hxy.
    + unfold append_tract, set_tractInfoList; simpl.
      rewrite <- app_assoc. reflexivity.
Qed.

(** What a successful [__init__] leaves in the instance. *)
Lemma init_spec (a : InitArgs) (sm : DodecaSkyMap) :
  __init__ a = Ok sm ->
  exists w h ts,
    patchInnerDimensions a = [w; h] /\
    Forall2 (fun id t => make_tract (_dodecahedron sm) sm id = Ok t) (seq 0 12) ts /\
    sm = {| _version := [1; 0];
            _dodecahedron := mkDodecahedron (withTractsOnPoles a);
            base := {| _patchInnerDimensions := (w, h);
                       _patchBorder := patchBorder a;
                       _tractOverlap := tractOverlap a;
                       _pixelScale := pixelScale a;
                       _projection := projection a;
                       _wcsFactory := mkWcsFactory (pixelScale a) (projection a);
                       _tractInfoList := ts |} |}.
Proof.
  unfold __init__. intros H. bind_inv H. bind_inv H. injection H as <-.
  unfold BaseSkyMap___init__ in E.
  destruct (patchInnerDimensions a) as [|w [|h [|? ?]]]; try discriminate E.
  destruct ((w <=? 0) || (h <=? 0)); [discriminate E|].
  destruct (patchBorder a <? 0); [discriminate E|].
  injection E as <-.
  apply init_loop_spec in E0 as (ts & HF & ->).
  exists w, h, ts. split; [reflexivity|]. split; [|reflexivity].
  exact HF.
Qed.

Lemma init_tracts (a : InitArgs) (sm : DodecaSkyMap) :
  __init__ a = Ok sm ->
  length (_tractInfoList sm) = 12%nat /\
  forall i, (i < 12)%nat ->
    exists t, _tractInfoList sm !! i = Some t /\
      make_tract (_dodecahedron sm) sm i = Ok t /\ tract_id t = i.
Proof.
  intros H. apply init_spec in H as (w & h & ts & _ & HF & Hsm).
  assert (Hts : _tractInfoList sm = ts) by (rewrite Hsm; reflexivity).
  rewrite Hts.
  pose proof (Forall2_length _ _ _ HF) as Hlen. rewrite length_seq in Hlen.
  split; [congruence|].
  intros i Hi.
  destruct (Forall2_lookup_l _ _ _ i i HF) as (t & Ht & Hmk).
  { apply lookup_seq. lia. }
  exists t. split; [exact Ht|]. split; [exact Hmk|].
  eapply make_tract_id; exact Hmk.
Qed.

Lemma getitem_lookup (self : BaseSkyMap) (i : nat) (t : TractInfo) :
  _tractInfoList self !! i = Some t -> __getitem__ self (Z.of_nat i) = Ok t.
Proof.
  intros H. pose proof (lookup_lt_Some _ _ _ H) as Hlt.
  unfold __getitem__, __len__.
  destruct (Z.of_nat i <? 0) eqn:Hneg; [apply Z.ltb_lt in Hneg; lia|].
  rewrite Hneg. simpl.
  destruct (Z.of_nat (length (_tractInfoList self)) <=? Z.of_nat i) eqn:Hge;
    [apply Z.leb_le in Hge; lia|].
  rewrite Nat2Z.id, H. reflexivity.
Qed.

(** C3: a constructed DodecaSkyMap has exactly 12 tracts; [len] is 12;
    [skymap[i]] is the i-th tract of the list, which is the tract the i-th
    turn of the construction loop made, and its id is [i]. *)
Theorem dodeca_twelve_tracts (a : InitArgs) (sm : DodecaSkyMap) :
  __init__ a = Ok sm ->
  length (_tractInfoList sm) = 12%nat /\
  __len__ sm = 12 /\
  forall i, (i < 12)%nat ->
    exists t, __getitem__ sm (Z.of_nat i) = Ok t /\
      _tractInfoList sm !! i = Some t /\
      make_tract (_dodecahedron sm) sm i = Ok t /\
      tract_id t = i.
Proof.
  intros H. destruct (init_tracts a sm H) as [Hlen Hall].
  split; [exact Hlen|]. split.
  - unfold __len__. rewrite Hlen. reflexivity.
  - intros i Hi. destruct (Hall i Hi) as (t & Ht & Hmk & Hid).
    exists t. split; [apply getitem_lookup; exact Ht|]. auto.
Qed.

(** C1: on a constructed DodecaSkyMap [findTract] succeeds for every
    coordinate and returns one tract, the one stored at the index that the
    face-membership test gives for the coordinate's ICRS vector. *)
Theorem findTract_total (a : InitArgs) (sm : DodecaSkyMap) (coord : Coord) :
  __init__ a = Ok sm ->
  exists t, findTract sm coord = Ok t /\
    _tractInfoList sm !! getFaceInd (_dodecahedron sm) (icrsVector coord) = Some t /\
    tract_id t = getFaceInd (_dodecahedron sm) (icrsVector coord).
Proof.
  intros H. destruct (init_tracts a sm H) as [_ Hall].
  destruct (Hall _ (getFaceInd_lt (_dodecahedron sm) (icrsVector coord)))
    as (t & Ht & _ & Hid).
  exists t. split; [|split; assumption].
  unfold findTract. apply getitem_lookup. exact Ht.
Qed.

(** *** Poles during construction *)

Lemma mapM_coordFromVec_default (ra : Angle) (l : list Vec) :
  exists cs, mapM (fun vec => _coordFromVec vec (Some ra)) l = Ok cs.
Proof.
  induction l as [|v l [cs IH]]; simpl.
  - eexists; reflexivity.
  - destruct (coordFromVec_default v ra) as [c Hc]. rewrite Hc, IH. simpl.
    eexists; reflexivity.
Qed.

Lemma make_tract_error (d : Dodecahedron) (self : BaseSkyMap) (id : nat) (e : exn) :
  make_tract d self id = Raise e -> e = ConfigurationError "invalid projection code".
Proof.
  unfold make_tract. intros H.
  destruct (coordFromVec_default (getFaceCtr d id) (mkAngle 0 radians)) as [c Hc].
  rewrite Hc in H. cbn [rbind] in H.
  destruct (mapM_coordFromVec_default (getLongitude c) (getVertices d id)) as [cs Hcs].
  rewrite Hcs in H. cbn [rbind] in H.
  unfold TractInfo___init__, WcsFactory_makeWcs in H.
  destruct (makeWcs _ _ _); simpl in H; congruence.
Qed.

Lemma init_loop_error (d : Dodecahedron) (ids : list nat) :
  forall self e, init_loop d self ids = Raise e ->
    e = ConfigurationError "invalid projection code".
Proof.
  induction ids as [|id ids IH]; intros self e H; simpl in H; [discriminate|].
  destruct (make_tract d self id) as [t|e'] eqn:E; cbn [rbind] in H.
  - eapply IH; exact H.
  - injection H as <-. eapply make_tract_error; exact E.
Qed.

Lemma make_tract_coords (d : Dodecahedron) (self : BaseSkyMap) (id : nat) (t : TractInfo) :
  make_tract d self id = Ok t ->
  _coordFromVec (getFaceCtr d id) (Some (mkAngle 0 radians)) = Ok (tract_ctrCoord t) /\
  mapM (fun vec => _coordFromVec vec (Some (getLongitude (tract_ctrCoord t))))
    (getVertices d id) = Ok (tract_vertexCoordList t).
Proof.
  unfold make_tract, TractInfo___init__. intros H.
  bind_inv H. bind_inv H. bind_inv H. injection H as <-. simpl.
  split; [reflexivity | assumption].
Qed.

(** C9: for every argument list (both orientations), construction does not
    raise the pole error; the conversions of a face center with default
    longitude 0 and of its vertices with the center's longitude always
    return; these are the conversions a constructed tract holds; and the
    center of a tract whose face center is at a pole is made with longitude
    [Angle(0)], which is the longitude it reads when the library returns
    the longitude a coordinate was made with. *)
Theorem init_no_pole_error (a : InitArgs) :
  (forall e, __init__ a = Raise e -> e <> RuntimeError "At pole and defRA==None") /\
  (forall d id, exists c cs,
     _coordFromVec (getFaceCtr d id) (Some (mkAngle 0 radians)) = Ok c /\
     mapM (fun vec => _coordFromVec vec (Some (getLongitude c))) (getVertices d id) = Ok cs) /\
  (forall sm i t, __init__ a = Ok sm -> _tractInfoList sm !! i = Some t ->
     let d := mkDodecahedron (withTractsOnPoles a) in
     let vec := getFaceCtr d i in
     _coordFromVec vec (Some (mkAngle 0 radians)) = Ok (tract_ctrCoord t) /\
     mapM (fun v => _coordFromVec v (Some (getLongitude (tract_ctrCoord t))))
       (getVertices d i) = Ok (tract_vertexCoordList t) /\
     ((abs (vx vec) <? _TinyFloat)%float = true ->
      (abs (vy vec) <? _TinyFloat)%float = true ->
      tract_ctrCoord t =
        makeCoord (mkAngle 0 radians)
          (mkAngle (if (0 <? vz vec)%float then 90.0%float else (-90.0)%float) degrees) /\
      ((forall lat, getLongitude (makeCoord (mkAngle 0 radians) lat) = mkAngle 0 radians) ->
       getLongitude (tract_ctrCoord t) = mkAngle 0 radians))).
Proof.
  split; [|split].
  - intros e H. unfold __init__ in H.
    destruct (BaseSkyMap___init__ _ _ _ _ _) as [self|e'] eqn:E; cbn [rbind] in H.
    + destruct (init_loop _ self _) as [self'|e'] eqn:E'; cbn [rbind] in H;
        [discriminate|].
      injection H as <-. apply init_loop_error in E'. subst e'. discriminate.
    + injection H as <-. unfold BaseSkyMap___init__ in E.
      destruct (patchInnerDimensions a) as [|w [|h [|? ?]]];
        try (injection E as <-; discriminate).
      destruct ((w <=? 0) || (h <=? 0)); [injection E as <-; discriminate|].
      destruct (patchBorder a <? 0); [injection E as <-; discriminate|].
      discriminate.
  - intros d id.
    destruct (coordFromVec_default (getFaceCtr d id) (mkAngle 0 radians)) as [c Hc].
    destruct (mapM_coordFromVec_default (getLongitude c) (getVertices d id)) as [cs Hcs].
    exists c, cs. split; assumption.
  - intros sm i t H Hi d vec.
    pose proof (lookup_lt_Some _ _ _ Hi) as Hlt.
    destruct (init_tracts a sm H) as [Hlen Hall]. rewrite Hlen in Hlt.
    destruct (Hall i Hlt) as (t' & Ht' & Hmk & _).
    rewrite Hi in Ht'. injection Ht' as <-.
    assert (Hd : _dodecahedron sm = d).
    { apply init_spec in H as (w & h & ts & _ & _ & ->). reflexivity. }
    rewrite Hd in Hmk. apply make_tract_coords in Hmk as [Hc Hv].
    split; [exact Hc|]. split; [exact Hv|].
    intros Hx Hy.
    assert (Hctr : tract_ctrCoord t =
      makeCoord (mkAngle 0 radians)
        (mkAngle (if (0 <? vz vec)%float then 90.0%float else (-90.0)%float) degrees)).
    { unfold _coordFromVec in Hc. fold vec in Hc. rewrite Hx, Hy in Hc. simpl in Hc.
      injection Hc as <-. reflexivity. }
    split; [exact Hctr|]. intros Hlon. rewrite Hctr. apply Hlon.
Qed.

(** *** Configuration errors *)

(** C8: with two patch inner dimensions of which one is not positive, or
    with a negative border, construction raises a ConfigurationError; the
    error is the one [BaseSkyMap.__init__] raises, which runs before the
    loop that builds the tracts, so it is raised whatever the projection
    factory and the geometry would do; no SkyMap is returned. *)
Theorem init_rejects_bad_patch_config (a : InitArgs) (w h : Z) :
  patchInnerDimensions a = [w; h] ->
  w <= 0 \/ h <= 0 \/ patchBorder a < 0 ->
  exists msg,
    BaseSkyMap___init__ (patchInnerDimensions a) (patchBorder a) (tractOverlap a)
      (pixelScale a) (projection a) = Raise (ConfigurationError msg) /\
    __init__ a = Raise (ConfigurationError msg) /\
    forall sm, __init__ a <> Ok sm.
Proof.
  intros Hd Hbad. unfold __init__, BaseSkyMap___init__. rewrite Hd.
  destruct ((w <=? 0) || (h <=? 0)) eqn:Hdim.
  - eexists. split; [reflexivity|]. split; [reflexivity|]. discriminate.
  - apply orb_false_iff in Hdim as [Hw Hh].
    apply Z.leb_gt in Hw, Hh.
    destruct (patchBorder a <? 0) eqn:Hb.
    + eexists. split; [reflexivity|]. split; [reflexivity|]. discriminate.
    + apply Z.ltb_ge in Hb. lia.
Qed.

(** *** Pickling *)

Lemma call_init_inv (kw : gmap string pyval) (sm : DodecaSkyMap) :
  call___init__ kw = Ok sm -> exists a, __init__ a = Ok sm.
Proof.
  unfold call___init__. intros H. bind_inv H. exists a. exact H.
Qed.

Lemma setstate_inv (argDict : gmap string pyval) (sm : DodecaSkyMap) :
  __setstate__ argDict = Ok sm -> exists a, __init__ a = Ok sm.
Proof.
  unfold __setstate__. intros H. bind_inv H. bind_inv H.
  destruct a0.
  - unfold py_raise in H. bind_inv H. discriminate H.
  - bind_inv H. eapply call_init_inv; exact H.
Qed.

Lemma init_version (a : InitArgs) (sm : DodecaSkyMap) :
  __init__ a = Ok sm -> _version sm = [1; 0].
Proof.
  intros H. apply init_spec in H as (w & h & ts & _ & _ & ->). reflexivity.
Qed.

(** C10: a constructed DodecaSkyMap has version (1, 0), which is what
    [getVersion] returns and [__getstate__] emits; an instance that
    [__setstate__] has set has version (1, 0) whatever version was
    pickled. *)
Theorem version_is_1_0 :
  (forall a sm, __init__ a = Ok sm ->
     getVersion sm = [1; 0] /\
     __getstate__ sm !! "version" = Some (PTuple [1; 0])) /\
  (forall argDict sm, __setstate__ argDict = Ok sm -> getVersion sm = [1; 0]).
Proof.
  split.
  - intros a sm H. pose proof (init_version a sm H) as Hv.
    split; [exact Hv|].
    unfold __getstate__. rewrite lookup_insert_eq, Hv. reflexivity.
  - intros argDict sm H. apply setstate_inv in H as [a H].
    eapply init_version; exact H.
Qed.

(** C4, what the code does: for a pickled version at or above (2, 0) the
    [raise] statement fails on its undefined name, and [__setstate__] ends
    with a NameError instead of the RuntimeError about the version. *)
Theorem setstate_future_version (argDict : gmap string pyval) (version : pytuple) :
  argDict !! "version" = Some (PTuple version) ->
  tuple_ge version [2; 0] = true ->
  __setstate__ argDict = Raise (NameError "runtimeError").
Proof.
  intros Hv Hge. unfold __setstate__, dict_pop. rewrite Hv. cbn [rbind fst snd py_ge].
  rewrite Hge. reflexivity.
Qed.

(** A pickled version below (2, 0) passes the version check: the angles are
    rebuilt and [__init__] is called with the remaining items. *)
Lemma setstate_accepted_version (argDict : gmap string pyval) (version : pytuple) :
  argDict !! "version" = Some (PTuple version) ->
  tuple_ge version [2; 0] = false ->
  __setstate__ argDict =
    let* argDict' := angle_loop (delete "version" argDict) ["tractOverlap"; "pixelScale"] in
    call___init__ argDict'.
Proof.
  intros Hv Hge. unfold __setstate__, dict_pop. rewrite Hv. cbn [rbind fst snd py_ge].
  rewrite Hge. reflexivity.
Qed.

(** The state of an instance with the given attributes, after the version
    is popped and the two angles are rebuilt. *)
Lemma setstate_getstate (w h border : Z) (overlap scale : Angle) (proj : string)
    (poles : bool) (wf : WcsFactory) (ts : list TractInfo) :
  __setstate__
    (__getstate__
       {| _version := [1; 0];
          _dodecahedron := mkDodecahedron poles;
          base := mkBaseSkyMap (w, h) border overlap scale proj wf ts |}) =
  __init__
    (mkInitArgs [w; h] border (mkAngle (asRadians overlap) radians)
       (mkAngle (asRadians scale) radians) proj poles).
Proof.
  rewrite (setstate_accepted_version _ [1; 0]);
    [|vm_compute; reflexivity|reflexivity].
  match goal with
  | |- rbind (angle_loop ?d ?l) _ = _ =>
      replace (angle_loop d l) with
        (Ok (<["pixelScale" := PAngle (mkAngle (asRadians scale) radians)]>
            (<["tractOverlap" := PAngle (mkAngle (asRadians overlap) radians)]> d)))
        by (vm_compute; reflexivity)
  end.
  cbn [rbind]. unfold call___init__.
  match goal with
  | |- rbind ?m _ = _ =>
      replace m with
        (Ok (mkInitArgs [w; h] border (mkAngle (asRadians overlap) radians)
               (mkAngle (asRadians scale) radians) proj poles))
        by (vm_compute; reflexivity)
  end.
  reflexivity.
Qed.

(** C5: when the library rebuilds an angle from its value in radians,
    [__getstate__] followed by [__setstate__] gives back the instance: the
    same configuration and the same tract list (hence every function of
    them).  The two angles are pickled as their values in radians. *)
Theorem pickle_roundtrip (a : InitArgs) (sm : DodecaSkyMap) :
  (forall x : Angle, mkAngle (asRadians x) radians = x) ->
  __init__ a = Ok sm ->
  __getstate__ sm !! "tractOverlap" = Some (PFloat (asRadians (getTractOverlap sm))) /\
  __getstate__ sm !! "pixelScale" = Some (PFloat (asRadians (getPixelScale sm))) /\
  __setstate__ (__getstate__ sm) = Ok sm.
Proof.
  intros Hrad H.
  split; [vm_compute; reflexivity|]. split; [vm_compute; reflexivity|].
  destruct (init_spec a sm H) as (w & h & ts & Hd & _ & Hsm).
  rewrite <- H. rewrite Hsm at 1.
  rewrite setstate_getstate, !Hrad.
  destruct a as [dims border overlap scale proj poles]; simpl in *.
  rewrite Hd. reflexivity.
Qed.

(** *** The reach of the epsilon *)

Lemma is_nan_Prim2SF (x : float) :
  is_nan x = true -> Prim2SF x = S754_nan.
Proof.
  unfold is_nan. rewrite (FloatAxioms.eqb_spec x x). unfold SFeqb.
  destruct (Prim2SF x) as [s|s| |s m e]; simpl; try reflexivity.
  - discriminate.
  - destruct s; discriminate.
  - change (Pos.compare_cont Eq m m) with (m ?= m)%positive.
    rewrite Z.compare_refl, Pos.compare_refl. destruct s; discriminate.
Qed.

Lemma nan_not_below (x y : float) :
  is_nan x = true -> (abs x <? y)%float = false.
Proof.
  intros H. rewrite ltb_spec, abs_spec, (is_nan_Prim2SF x H). reflexivity.
Qed.

(** A NaN equatorial component is never taken for a pole: the conversion
    returns the coordinate of the vector, with or without a default. *)
Theorem coordFromVec_nan (vec : Vec) (defRA : option Angle) :
  is_nan (vx vec) = true \/ is_nan (vy vec) = true ->
  _coordFromVec vec defRA = Ok (makeCoordVec vec).
Proof.
  intros H. apply coordFromVec_off_pole.
  destruct H as [H | H]; rewrite (nan_not_below _ _TinyFloat H).
  - reflexivity.
  - apply andb_false_r.
Qed.







(** *** What the tracts hold *)

Lemma mapM_length {A B} (f : A -> result B) (l : list A) :
  forall ys, mapM f l = Ok ys -> length ys = length l.
Proof.
  induction l as [|x l IH]; intros ys H; simpl in H.
  - injection H as <-. reflexivity.
  - bind_inv H. bind_inv H. injection H as <-. simpl. f_equal. apply IH. reflexivity.
Qed.

Lemma mapM_lookup {A B} (f : A -> result B) (l : list A) :
  forall ys k x, mapM f l = Ok ys -> l !! k = Some x ->
    exists y, ys !! k = Some y /\ f x = Ok y.
Proof.
  induction l as [|x0 l IH]; intros ys k x H Hk; [discriminate Hk|].
  simpl in H. bind_inv H. bind_inv H. injection H as <-.
  destruct k as [|k]; simpl in Hk.
  - injection Hk as <-. exists a. split; [reflexivity | assumption].
  - destruct (IH a0 k x eq_refl Hk) as (y & Hy & Hf). exists y. split; assumption.
Qed.

Lemma init_dodecahedron (a : InitArgs) (sm : DodecaSkyMap) :
  __init__ a = Ok sm -> _dodecahedron sm = mkDodecahedron (withTractsOnPoles a).
Proof.
  intros H. apply init_spec in H as (w & h & ts & _ & _ & ->). reflexivity.
Qed.

Lemma init_tract_made (a : InitArgs) (sm : DodecaSkyMap) (i : nat) (t : TractInfo) :
  __init__ a = Ok sm -> _tractInfoList sm !! i = Some t ->
  make_tract (mkDodecahedron (withTractsOnPoles a)) sm i = Ok t.
Proof.
  intros H Hi. pose proof (lookup_lt_Some _ _ _ Hi) as Hlt.
  destruct (init_tracts a sm H) as [Hlen Hall]. rewrite Hlen in Hlt.
  destruct (Hall i Hlt) as (t' & Ht' & Hmk & _).
  rewrite Hi in Ht'. injection Ht' as <-.
  rewrite <- (init_dodecahedron a sm H). exact Hmk.
Qed.

(** The coordinates of the tracts of a constructed sky map.  The center of
    tract [i] is the coordinate of the center of face [i], or the pole of
    its hemisphere with longitude [Angle(0)] when that center is at a pole.
    The vertex coordinates are one per vertex of the face, in the order of
    the face's vertices: the coordinate of the vertex, or the pole of its
    hemisphere with the longitude of the tract's center when the vertex is
    at a pole. *)
Theorem tract_coordinates (a : InitArgs) (sm : DodecaSkyMap) (i : nat) (t : TractInfo) :
  __init__ a = Ok sm ->
  _tractInfoList sm !! i = Some t ->
  let d := mkDodecahedron (withTractsOnPoles a) in
  let pole_or_vec := fun (lon : Angle) (vec : Vec) =>
    if (abs (vx vec) <? _TinyFloat)%float && (abs (vy vec) <? _TinyFloat)%float
    then makeCoord lon
           (mkAngle (if (0 <? vz vec)%float then 90.0%float else (-90.0)%float) degrees)
    else makeCoordVec vec in
  tract_ctrCoord t = pole_or_vec (mkAngle 0 radians) (getFaceCtr d i) /\
  length (tract_vertexCoordList t) = length (getVertices d i) /\
  forall k vec, getVertices d i !! k = Some vec ->
    tract_vertexCoordList t !! k =
      Some (pole_or_vec (getLongitude (tract_ctrCoord t)) vec).
Proof.
  intros H Hi d pole_or_vec.
  pose proof (init_tract_made a sm i t H Hi) as Hmk. fold d in Hmk.
  apply make_tract_coords in Hmk as [Hc Hv].
  assert (Hconv : forall lon vec, _coordFromVec vec (Some lon) = Ok (pole_or_vec lon vec)).
  { intros lon vec. unfold _coordFromVec, pole_or_vec.
    destruct (_ && _); reflexivity. }
  split; [|split].
  - rewrite Hconv in Hc. injection Hc as <-. reflexivity.
  - eapply mapM_length; exact Hv.
  - intros k vec Hk.
    destruct (mapM_lookup _ _ _ k vec Hv Hk) as (y & Hy & Hf).
    rewrite Hconv in Hf. injection Hf as <-. exact Hy.
Qed.

(** Every tract of a constructed sky map is made with the sky map's own
    patch inner dimensions, patch border and tract overlap. *)
Theorem tract_configuration (a : InitArgs) (sm : DodecaSkyMap) (i : nat) (t : TractInfo) :
  __init__ a = Ok sm ->
  _tractInfoList sm !! i = Some t ->
  tract_patchInnerDimensions t = getPatchInnerDimensions sm /\
  tract_patchBorder t = getPatchBorder sm /\
  tract_tractOverlap t = getTractOverlap sm.
Proof.
  intros H Hi. pose proof (init_tract_made a sm i t H Hi) as Hmk.
  unfold make_tract, TractInfo___init__ in Hmk.
  bind_inv Hmk. bind_inv Hmk. bind_inv Hmk. injection Hmk as <-.
  repeat split.
Qed.

(** *** The state of a constructed sky map *)

(** The pickled state of the sky map made from the arguments [a]: the
    items of [a], the two angles as their values in radians, and version
    (1, 0).  [getWithTractsOnPoles] returns the flag given to [__init__]. *)
Theorem getstate_of_init (a : InitArgs) (sm : DodecaSkyMap) :
  __init__ a = Ok sm ->
  getWithTractsOnPoles sm = withTractsOnPoles a /\
  __getstate__ sm =
    <["version" := PTuple [1; 0]]>
    (<["patchInnerDimensions" := PTuple (patchInnerDimensions a)]>
    (<["patchBorder" := PInt (patchBorder a)]>
    (<["tractOverlap" := PFloat (asRadians (tractOverlap a))]>
    (<["pixelScale" := PFloat (asRadians (pixelScale a))]>
    (<["projection" := PStr (projection a)]>
    (<["withTractsOnPoles" := PBool (withTractsOnPoles a)]> ∅)))))).
Proof.
  intros H. apply init_spec in H as (w & h & ts & Hd & _ & ->).
  split; [reflexivity|]. rewrite Hd. reflexivity.
Qed.

(** Different arguments never give the same sky map: the arguments can be
    read back from the instance. *)
Theorem init_injective (a1 a2 : InitArgs) (sm : DodecaSkyMap) :
  __init__ a1 = Ok sm -> __init__ a2 = Ok sm -> a1 = a2.
Proof.
  intros H1 H2.
  apply init_spec in H1 as (w1 & h1 & ts1 & Hd1 & _ & Hsm1).
  apply init_spec in H2 as (w2 & h2 & ts2 & Hd2 & _ & Hsm2).
  rewrite Hsm1 in Hsm2. injection Hsm2 as Hpoles Hw Hh Hb Ho Hs Hp _ _.
  destruct a1, a2; simpl in *. congruence.
Qed.

Lemma setstate_getstate_init (a : InitArgs) (sm : DodecaSkyMap) :
  (forall x : Angle, mkAngle (asRadians x) radians = x) ->
  __init__ a = Ok sm -> __setstate__ (__getstate__ sm) = Ok sm.
Proof.
  intros Hrad H.
  destruct (init_spec a sm H) as (w & h & ts & Hd & _ & Hsm).
  rewrite <- H. rewrite Hsm at 1.
  rewrite setstate_getstate, !Hrad.
  destruct a as [dims border overlap scale proj poles]; simpl in *.
  rewrite Hd. reflexivity.
Qed.

(** When the library rebuilds an angle from its value in radians, the
    pickled state identifies the sky map: two constructed sky maps with the
    same state are the same. *)
Theorem getstate_injective (a1 a2 : InitArgs) (sm1 sm2 : DodecaSkyMap) :
  (forall x : Angle, mkAngle (asRadians x) radians = x) ->
  __init__ a1 = Ok sm1 -> __init__ a2 = Ok sm2 ->
  __getstate__ sm1 = __getstate__ sm2 -> sm1 = sm2.
Proof.
  intros Hrad H1 H2 Hst.
  pose proof (setstate_getstate_init a1 sm1 Hrad H1) as R1.
  pose proof (setstate_getstate_init a2 sm2 Hrad H2) as R2.
  rewrite Hst, R2 in R1. injection R1 as ->. reflexivity.
Qed.

(** *** Unpickling: the dictionary *)

Lemma angle_loop_run_fst (names : list string) :
  forall d, angle_loop d names =
    match angle_loop_run d names with
    | (Ok _, d') => Ok d'
    | (Raise e, _) => Raise e
    end.
Proof.
  induction names as [|k names IH]; intros d; simpl; [reflexivity|].
  destruct (dict_getitem k d) as [v|e]; cbn [rbind]; [|reflexivity].
  destruct (Angle_of_value v radians) as [a|e]; cbn [rbind]; [|reflexivity].
  apply IH.
Qed.

Lemma angle_loop_run_lookup_other (names : list string) (k : string) :
  k ∉ names ->
  forall d, snd (angle_loop_run d names) !! k = d !! k.
Proof.
  induction names as [|k0 names IH]; intros Hk d; simpl; [reflexivity|].
  apply not_elem_of_cons in Hk as [Hne Hk].
  destruct (dict_getitem k0 d) as [v|e]; [|reflexivity].
  destruct (Angle_of_value v radians) as [a|e]; [|reflexivity].
  rewrite (IH Hk). apply lookup_insert_ne. congruence.
Qed.

Lemma angle_loop_run_angles (names : list string) (k : string) :
  k ∈ names ->
  forall d u d', angle_loop_run d names = (Ok u, d') ->
    exists a, d' !! k = Some (PAngle a).
Proof.
  induction names as [|k0 names IH]; intros Hk d u d' H; [inversion Hk|].
  simpl in H.
  destruct (dict_getitem k0 d) as [v|e]; [|discriminate H].
  destruct (Angle_of_value v radians) as [a|e]; [|discriminate H].
  destruct (decide (k ∈ names)) as [Hin|Hnin].
  - eapply IH; eassumption.
  - apply elem_of_cons in Hk as [->|Hin]; [|contradiction].
    exists a.
    pose proof (angle_loop_run_lookup_other names k0 Hnin (<[k0:=PAngle a]> d)) as Hl.
    rewrite H in Hl. simpl in Hl. rewrite Hl. apply lookup_insert_eq.
Qed.

Lemma version_not_angle : "version" ∉ ["tractOverlap"; "pixelScale"].
Proof.
  intros H. apply list_elem_of_In in H. simpl in H. intuition discriminate.
Qed.

Lemma setstate_run_fst (d : gmap string pyval) :
  fst (__setstate___run d) = __setstate__ d.
Proof.
  unfold __setstate___run, __setstate__.
  destruct (dict_pop "version" d) as [popped|e]; cbn [rbind fst]; [|reflexivity].
  destruct (py_ge (fst popped) (PTuple [2; 0])) as [[|]|e]; cbn [rbind fst];
    try reflexivity.
  rewrite angle_loop_run_fst.
  destruct (angle_loop_run (snd popped) ["tractOverlap"; "pixelScale"]) as [[u|e] d'];
    reflexivity.
Qed.

Lemma setstate_run_no_version (d : gmap string pyval) :
  snd (__setstate___run d) !! "version" = None.
Proof.
  unfold __setstate___run, dict_pop.
  destruct (d !! "version") as [v|] eqn:Hv; [|exact Hv].
  cbn [fst snd].
  assert (Hdel : delete "version" d !! "version" = None) by apply lookup_delete_eq.
  destruct (py_ge v (PTuple [2; 0])) as [[|]|e]; cbn [snd]; try exact Hdel.
  pose proof (angle_loop_run_lookup_other ["tractOverlap"; "pixelScale"] "version"
                version_not_angle (delete "version" d)) as Hl.
  destruct (angle_loop_run (delete "version" d) ["tractOverlap"; "pixelScale"])
    as [[u|e] d']; simpl in *; congruence.
Qed.

(** [__setstate__] uses up the dictionary it is given.  Whatever the
    dictionary and however the call ends, the dictionary is left without a
    version, so a second call on it raises [KeyError('version')]; after a
    call that returned, it holds [Angle] objects under the two angle keys.
    The result is the one of [__setstate__] on the dictionary. *)
Theorem setstate_uses_up_dict (d : gmap string pyval) :
  fst (__setstate___run d) = __setstate__ d /\
  __setstate__ (snd (__setstate___run d)) = Raise (KeyError "version") /\
  (forall sm, __setstate__ d = Ok sm ->
     exists a1 a2,
       snd (__setstate___run d) !! "tractOverlap" = Some (PAngle a1) /\
       snd (__setstate___run d) !! "pixelScale" = Some (PAngle a2)).
Proof.
  split; [apply setstate_run_fst|]. split.
  - unfold __setstate__, dict_pop. rewrite setstate_run_no_version. reflexivity.
  - intros sm H. rewrite <- setstate_run_fst in H.
    unfold __setstate___run in *.
    destruct (dict_pop "version" d) as [popped|e]; [|discriminate H].
    cbn [fst snd] in *.
    destruct (py_ge (fst popped) (PTuple [2; 0])) as [[|]|e]; try discriminate H.
    destruct (angle_loop_run (snd popped) ["tractOverlap"; "pixelScale"])
      as [[u|e] d'] eqn:Hrun; [|discriminate H].
    cbn [snd].
    destruct (angle_loop_run_angles ["tractOverlap"; "pixelScale"] "tractOverlap"
                ltac:(apply list_elem_of_In; simpl; auto) _ _ _ Hrun) as [a1 H1].
    destruct (angle_loop_run_angles ["tractOverlap"; "pixelScale"] "pixelScale"
                ltac:(apply list_elem_of_In; simpl; auto) _ _ _ Hrun) as [a2 H2].
    exists a1, a2. split; assumption.
Qed.

(** *** Unpickling: which states are accepted, and what they give *)

Lemma setstate_ok_inv (d : gmap string pyval) (sm : DodecaSkyMap) :
  __setstate__ d = Ok sm ->
  exists v d' a,
    d !! "version" = Some (PTuple v) /\ tuple_ge v [2; 0] = false /\
    angle_loop (delete "version" d) ["tractOverlap"; "pixelScale"] = Ok d' /\
    bind_kwargs d' = Ok a /\ __init__ a = Ok sm.
Proof.
  unfold __setstate__, dict_pop. intros H.
  destruct (d !! "version") as [pv|] eqn:Hv; [|discriminate H].
  cbn [rbind fst snd] in H.
  destruct pv as [ | | | |v| ]; try discriminate H.
  cbn [py_ge rbind] in H.
  destruct (tuple_ge v [2; 0]) eqn:Hge.
  - unfold py_raise in H. bind_inv H. discriminate H.
  - bind_inv H. unfold call___init__ in H. bind_inv H.
    exists v, a, a0. auto.
Qed.

Lemma angle_loop_ok_inv (d d' : gmap string pyval) :
  angle_loop d ["tractOverlap"; "pixelScale"] = Ok d' ->
  exists v1 a1 v2 a2,
    d !! "tractOverlap" = Some v1 /\ Angle_of_value v1 radians = Ok a1 /\
    d !! "pixelScale" = Some v2 /\ Angle_of_value v2 radians = Ok a2 /\
    d' = <["pixelScale" := PAngle a2]> (<["tractOverlap" := PAngle a1]> d).
Proof.
  simpl. unfold dict_getitem. intros H.
  destruct (d !! "tractOverlap") as [v1|] eqn:H1; [|discriminate H].
  cbn [rbind] in H. bind_inv H.
  rewrite lookup_insert_ne in H by discriminate.
  destruct (d !! "pixelScale") as [v2|] eqn:H2; [|discriminate H].
  cbn [rbind] in H. bind_inv H. injection H as <-.
  exists v1, a, v2, a0. auto.
Qed.

Lemma foldr_delete_lookup (ks : list string) (k : string) (m : gmap string pyval) :
  k ∉ ks -> foldr delete m ks !! k = m !! k.
Proof.
  induction ks as [|k0 ks IH]; intros Hk; simpl; [reflexivity|].
  apply not_elem_of_cons in Hk as [Hne Hk].
  rewrite lookup_delete_ne by congruence. apply IH, Hk.
Qed.

Lemma bind_kwargs_ok_inv (kw : gmap string pyval) (a : InitArgs) :
  bind_kwargs kw = Ok a ->
  foldr delete kw init_params = ∅ /\
  kwarg "patchInnerDimensions" as_tuple _DefaultPatchInnerDimensions kw
    = Ok (patchInnerDimensions a) /\
  kwarg "patchBorder" as_int _DefaultPatchBorder kw = Ok (patchBorder a) /\
  kwarg "tractOverlap" as_angle _DefaultTractOverlap kw = Ok (tractOverlap a) /\
  kwarg "pixelScale" as_angle _DefaultPlateScale kw = Ok (pixelScale a) /\
  kwarg "projection" as_str "STG" kw = Ok (projection a) /\
  kwarg "withTractsOnPoles" as_bool false kw = Ok (withTractsOnPoles a).
Proof.
  unfold bind_kwargs. intros H.
  destruct (map_to_list (foldr delete kw init_params)) as [|[k v] l] eqn:Hl;
    [|discriminate H].
  apply map_to_list_empty_iff in Hl.
  do 6 bind_inv H. injection H as <-. simpl. auto 10.
Qed.

Lemma kwarg_present {A} (name : string) (conv : pyval -> option A) (dflt x : A)
    (kw : gmap string pyval) (v : pyval) (r : A) :
  kwarg name conv dflt kw = Ok r -> kw !! name = Some v -> conv v = Some x -> r = x.
Proof.
  unfold kwarg. intros H Hv Hc. rewrite Hv, Hc in H. congruence.
Qed.

Lemma kwarg_absent {A} (name : string) (conv : pyval -> option A) (dflt : A)
    (kw : gmap string pyval) (r : A) :
  kwarg name conv dflt kw = Ok r -> kw !! name = None -> r = dflt.
Proof.
  unfold kwarg. intros H Hv. rewrite Hv in H. congruence.
Qed.

(** A missing item: without a version [__setstate__] raises
    [KeyError('version')]; with an accepted version and without the tract
    overlap it raises [KeyError('tractOverlap')]; with a numeric tract
    overlap and without the pixel scale it raises [KeyError('pixelScale')]. *)
Theorem setstate_missing_key (d : gmap string pyval) :
  (d !! "version" = None -> __setstate__ d = Raise (KeyError "version")) /\
  (forall v, d !! "version" = Some (PTuple v) -> tuple_ge v [2; 0] = false ->
     (d !! "tractOverlap" = None ->
      __setstate__ d = Raise (KeyError "tractOverlap")) /\
     (forall x, d !! "tractOverlap" = Some (PFloat x) -> d !! "pixelScale" = None ->
      __setstate__ d = Raise (KeyError "pixelScale"))).
Proof.
  split.
  - intros H. unfold __setstate__, dict_pop. rewrite H. reflexivity.
  - intros v Hv Hge. rewrite (setstate_accepted_version d v Hv Hge).
    simpl. unfold dict_getitem. split.
    + intros H. rewrite lookup_delete_ne, H by discriminate. reflexivity.
    + intros x Hx Hs. rewrite lookup_delete_ne, Hx by discriminate.
      cbn [rbind Angle_of_value].
      rewrite lookup_insert_ne, lookup_delete_ne, Hs by discriminate. reflexivity.
Qed.

(** The pickled version is only checked: two states that differ in their
    version alone, both below (2, 0), give the same result. *)
Theorem setstate_version_irrelevant (d : gmap string pyval) (v1 v2 : pytuple) :
  tuple_ge v1 [2; 0] = false -> tuple_ge v2 [2; 0] = false ->
  __setstate__ (<["version" := PTuple v1]> d) =
  __setstate__ (<["version" := PTuple v2]> d).
Proof.
  intros H1 H2.
  rewrite (setstate_accepted_version _ v1 (lookup_insert_eq _ _ _) H1).
  rewrite (setstate_accepted_version _ v2 (lookup_insert_eq _ _ _) H2).
  rewrite !delete_insert_eq. reflexivity.
Qed.

(** Unpickling is a constructor call.  When [__setstate__] returns, the
    instance is the one [__init__] makes from these arguments: the two
    angles rebuilt from the pickled values in radians, the other items of
    the state as they are, and the defaults of [__init__] for the items the
    state lacks. *)
Theorem setstate_is_init (d : gmap string pyval) (sm : DodecaSkyMap) :
  __setstate__ d = Ok sm ->
  exists a, __init__ a = Ok sm /\
    (forall x, d !! "tractOverlap" = Some (PFloat x) -> tractOverlap a = mkAngle x radians) /\
    (forall x, d !! "pixelScale" = Some (PFloat x) -> pixelScale a = mkAngle x radians) /\
    (forall t, d !! "patchInnerDimensions" = Some (PTuple t) -> patchInnerDimensions a = t) /\
    (forall n, d !! "patchBorder" = Some (PInt n) -> patchBorder a = n) /\
    (forall s, d !! "projection" = Some (PStr s) -> projection a = s) /\
    (forall b, d !! "withTractsOnPoles" = Some (PBool b) -> withTractsOnPoles a = b) /\
    (d !! "patchInnerDimensions" = None ->
     patchInnerDimensions a = _DefaultPatchInnerDimensions) /\
    (d !! "patchBorder" = None -> patchBorder a = _DefaultPatchBorder) /\
    (d !! "projection" = None -> projection a = "STG") /\
    (d !! "withTractsOnPoles" = None -> withTractsOnPoles a = false).
Proof.
  intros H.
  apply setstate_ok_inv in H as (v & d' & a & Hv & Hge & Hloop & Hbind & Hinit).
  apply angle_loop_ok_inv in Hloop
    as (v1 & a1 & v2 & a2 & H1 & Ha1 & H2 & Ha2 & ->).
  rewrite lookup_delete_ne in H1, H2 by discriminate.
  apply bind_kwargs_ok_inv in Hbind as (_ & Kd & Kb & Ko & Ks & Kp & Kw).
  assert (Hother : forall k, k <> "version" -> k <> "tractOverlap" -> k <> "pixelScale" ->
    (<["pixelScale" := PAngle a2]>
       (<["tractOverlap" := PAngle a1]> (delete "version" d))) !! k = d !! k).
  { intros k Hk1 Hk2 Hk3.
    rewrite !lookup_insert_ne, lookup_delete_ne by congruence. reflexivity. }
  exists a. split; [exact Hinit|].
  repeat split.
  - intros x Hx. rewrite Hx in H1. injection H1 as <-. injection Ha1 as <-.
    eapply (kwarg_present _ _ _ _ _ (PAngle (mkAngle x radians)) _ Ko); [|reflexivity].
    rewrite lookup_insert_ne by discriminate. apply lookup_insert_eq.
  - intros x Hx. rewrite Hx in H2. injection H2 as <-. injection Ha2 as <-.
    eapply (kwarg_present _ _ _ _ _ (PAngle (mkAngle x radians)) _ Ks); [|reflexivity].
    apply lookup_insert_eq.
  - intros t Ht. eapply (kwarg_present _ _ _ _ _ (PTuple t) _ Kd); [|reflexivity].
    rewrite Hother by discriminate. exact Ht.
  - intros n Hn. eapply (kwarg_present _ _ _ _ _ (PInt n) _ Kb); [|reflexivity].
    rewrite Hother by discriminate. exact Hn.
  - intros s Hs. eapply (kwarg_present _ _ _ _ _ (PStr s) _ Kp); [|reflexivity].
    rewrite Hother by discriminate. exact Hs.
  - intros b Hb. eapply (kwarg_present _ _ _ _ _ (PBool b) _ Kw); [|reflexivity].
    rewrite Hother by discriminate. exact Hb.
  - intros Hn. eapply (kwarg_absent _ _ _ _ _ Kd).
    rewrite Hother by discriminate. exact Hn.
  - intros Hn. eapply (kwarg_absent _ _ _ _ _ Kb).
    rewrite Hother by discriminate. exact Hn.
  - intros Hn. eapply (kwarg_absent _ _ _ _ _ Kp).
    rewrite Hother by discriminate. exact Hn.
  - intros Hn. eapply (kwarg_absent _ _ _ _ _ Kw).
    rewrite Hother by discriminate. exact Hn.
Qed.

(** A state that unpickles holds no item besides the version and the six
    parameters of [__init__]: any other key makes the keyword call fail. *)
Theorem setstate_no_unexpected_key (d : gmap string pyval) (sm : DodecaSkyMap) (k : string) :
  __setstate__ d = Ok sm ->
  d !! k <> None ->
  k ∈ "version" :: init_params.
Proof.
  intros H Hk.
  apply setstate_ok_inv in H as (v & d' & a & Hv & Hge & Hloop & Hbind & Hinit).
  apply angle_loop_ok_inv in Hloop
    as (v1 & a1 & v2 & a2 & H1 & Ha1 & H2 & Ha2 & ->).
  apply bind_kwargs_ok_inv in Hbind as (Hempty & _).
  destruct (decide (k ∈ "version" :: init_params)) as [Hin|Hnin]; [exact Hin|].
  exfalso. apply Hk.
  assert (Hp : k ∉ init_params).
  { intros Hp. apply Hnin. right. exact Hp. }
  assert (Hne : k <> "version").
  { intros ->. apply Hnin. left. }
  match type of Hempty with
  | foldr delete ?m _ = _ => pose proof (foldr_delete_lookup init_params k m Hp) as Hl
  end.
  rewrite Hempty, lookup_empty in Hl. symmetry in Hl.
  assert (k <> "tractOverlap" /\ k <> "pixelScale") as [Hn1 Hn2].
  { split; intros ->; apply Hp; apply list_elem_of_In; simpl; auto. }
  rewrite !lookup_insert_ne, lookup_delete_ne in Hl by congruence. exact Hl.
Qed.

(** *** Unpickling: the exceptions *)

Lemma init_raise_inv (a : InitArgs) (e : exn) :
  __init__ a = Raise e ->
  (exists msg, e = TypeError msg) \/ (exists msg, e = ConfigurationError msg).
Proof.
  unfold __init__. intros H.
  destruct (BaseSkyMap___init__ _ _ _ _ _) as [self|e'] eqn:E; cbn [rbind] in H.
  - destruct (init_loop _ self _) as [self'|e'] eqn:E'; cbn [rbind] in H;
      [discriminate|].
    injection H as <-. apply init_loop_error in E'. right. eauto.
  - injection H as <-. unfold BaseSkyMap___init__ in E.
    destruct (patchInnerDimensions a) as [|w [|h [|? ?]]];
      try (injection E as <-; left; eauto).
    destruct ((w <=? 0) || (h <=? 0)); [injection E as <-; right; eauto|].
    destruct (patchBorder a <? 0); [injection E as <-; right; eauto|].
    discriminate.
Qed.

Lemma kwarg_raise_inv {A} (name : string) (conv : pyval -> option A) (dflt : A)
    (kw : gmap string pyval) (e : exn) :
  kwarg name conv dflt kw = Raise e -> exists msg, e = TypeError msg.
Proof.
  unfold kwarg. intros H.
  destruct (kw !! name) as [v|]; [|discriminate H].
  destruct (conv v); [discriminate H|]. injection H as <-. eauto.
Qed.

Lemma bind_kwargs_raise_inv (kw : gmap string pyval) (e : exn) :
  bind_kwargs kw = Raise e -> exists msg, e = TypeError msg.
Proof.
  unfold bind_kwargs. intros H.
  destruct (map_to_list (foldr delete kw init_params)) as [|[k v] l].
  - repeat match type of H with
    | rbind ?m _ = Raise _ =>
        let E := fresh "E" in
        destruct m eqn:E; cbn [rbind] in H;
          [|injection H as <-; eapply kwarg_raise_inv; exact E]
    end.
    discriminate H.
  - injection H as <-. eauto.
Qed.

Lemma Angle_of_value_raise_inv (v : pyval) (u : AngleUnit) (e : exn) :
  Angle_of_value v u = Raise e -> exists msg, e = TypeError msg.
Proof.
  destruct v; simpl; intros H; try discriminate H; injection H as <-; eauto.
Qed.

Lemma angle_loop_raise_inv (d : gmap string pyval) (e : exn) :
  angle_loop d ["tractOverlap"; "pixelScale"] = Raise e ->
  e = KeyError "tractOverlap" \/ e = KeyError "pixelScale" \/
  exists msg, e = TypeError msg.
Proof.
  simpl. unfold dict_getitem. intros H.
  destruct (d !! "tractOverlap") as [v1|]; cbn [rbind] in H;
    [|injection H as <-; auto].
  destruct (Angle_of_value v1 radians) as [a1|e1] eqn:E1; cbn [rbind] in H;
    [|injection H as <-; right; right; eapply Angle_of_value_raise_inv; exact E1].
  destruct (_ !! "pixelScale") as [v2|]; cbn [rbind] in H;
    [|injection H as <-; auto].
  destruct (Angle_of_value v2 radians) as [a2|e2] eqn:E2; cbn [rbind] in H;
    [|injection H as <-; right; right; eapply Angle_of_value_raise_inv; exact E2].
  discriminate H.
Qed.

(** Every way [__setstate__] can raise. *)
Lemma setstate_raise_inv (d : gmap string pyval) (e : exn) :
  __setstate__ d = Raise e ->
  (e = KeyError "version" /\ d !! "version" = None) \/
  (e = NameError "runtimeError" /\
   exists v, d !! "version" = Some (PTuple v) /\ tuple_ge v [2; 0] = true) \/
  e = KeyError "tractOverlap" \/ e = KeyError "pixelScale" \/
  (exists msg, e = TypeError msg) \/ (exists msg, e = ConfigurationError msg).
Proof.
  unfold __setstate__, dict_pop. intros H.
  destruct (d !! "version") as [pv|] eqn:Hv; cbn [rbind fst snd] in H;
    [|injection H as <-; auto].
  destruct pv as [ | | | |v| ];
    try (injection H as <-; right; right; right; right; left; eauto).
  cbn [py_ge rbind] in H.
  destruct (tuple_ge v [2; 0]) eqn:Hge.
  - injection H as <-. right. left. eauto.
  - destruct (angle_loop _ _) as [d'|e'] eqn:El; cbn [rbind] in H.
    + unfold call___init__ in H.
      destruct (bind_kwargs d') as [a|e'] eqn:Eb; cbn [rbind] in H.
      * apply init_raise_inv in H. tauto.
      * injection H as <-. apply bind_kwargs_raise_inv in Eb. tauto.
    + injection H as <-. apply angle_loop_raise_inv in El. tauto.
Qed.

Lemma tuple_ge_pair (major minor : Z) :
  tuple_ge [major; minor] [2; 0] = true <-> 2 < major \/ (major = 2 /\ 0 <= minor).
Proof.
  unfold tuple_ge. simpl.
  destruct (Z.ltb_spec major 2); simpl; [split; [discriminate|lia]|].
  destruct (Z.ltb_spec 2 major); simpl; [split; [lia|reflexivity]|].
  destruct (Z.ltb_spec minor 0); simpl; [split; [discriminate|lia]|].
  destruct (Z.ltb_spec 0 minor); simpl; split; try reflexivity; lia.
Qed.

(** [__setstate__] raises a [NameError] for the states with a version at or
    above (2, 0) and for no other state, and the name is always
    [runtimeError]. *)
Theorem setstate_NameError_iff (d : gmap string pyval) (name : string) :
  __setstate__ d = Raise (NameError name) <->
  name = "runtimeError" /\
  exists v, d !! "version" = Some (PTuple v) /\ tuple_ge v [2; 0] = true.
Proof.
  split.
  - intros H. apply setstate_raise_inv in H.
    destruct H as [[H _]|[[H Hv]|[H|[H|[[m H]|[m H]]]]]]; try discriminate H.
    injection H as ->. split; [reflexivity | exact Hv].
  - intros [-> (v & Hv & Hge)].
    unfold __setstate__, dict_pop. rewrite Hv. cbn [rbind fst snd py_ge].
    rewrite Hge. reflexivity.
Qed.

(** For a version that is a pair (major, minor), [__setstate__] stops on the
    version exactly when major is above 2, or major is 2 and minor is not
    negative: every version 0.x and 1.x is accepted, and so is (2, -1). *)
Theorem setstate_rejects_pair (d : gmap string pyval) (major minor : Z) :
  d !! "version" = Some (PTuple [major; minor]) ->
  (__setstate__ d = Raise (NameError "runtimeError") <->
   2 < major \/ (major = 2 /\ 0 <= minor)).
Proof.
  intros Hv. rewrite <- tuple_ge_pair. split.
  - intros H. apply setstate_raise_inv in H.
    destruct H as [[H _]|[[_ (v & Hv' & Hge)]|[H|[H|[[m H]|[m H]]]]]];
      try discriminate H.
    rewrite Hv in Hv'. injection Hv' as <-. exact Hge.
  - intros Hge. unfold __setstate__, dict_pop. rewrite Hv. cbn [rbind fst snd py_ge].
    rewrite Hge. reflexivity.
Qed.

(** *** From a state to an instance and back *)

(** When the library gives back in radians the value an angle was made
    from, a state with the seven items that unpickles is read back
    unchanged from the instance, but for its version, which is (1, 0). *)
Theorem getstate_setstate (v dims : pytuple) (border : Z) (overlap scale : float)
    (proj : string) (poles : bool) (sm : DodecaSkyMap) :
  (forall x : float, asRadians (mkAngle x radians) = x) ->
  __setstate__
    (<["version" := PTuple v]>
    (<["patchInnerDimensions" := PTuple dims]>
    (<["patchBorder" := PInt border]>
    (<["tractOverlap" := PFloat overlap]>
    (<["pixelScale" := PFloat scale]>
    (<["projection" := PStr proj]>
    (<["withTractsOnPoles" := PBool poles]> ∅))))))) = Ok sm ->
  __getstate__ sm =
    <["version" := PTuple [1; 0]]>
    (<["patchInnerDimensions" := PTuple dims]>
    (<["patchBorder" := PInt border]>
    (<["tractOverlap" := PFloat overlap]>
    (<["pixelScale" := PFloat scale]>
    (<["projection" := PStr proj]>
    (<["withTractsOnPoles" := PBool poles]> ∅)))))).
Proof.
  intros Hrad H.
  destruct (setstate_ok_inv _ _ H) as (v' & d' & a & Hv & Hge & _).
  rewrite lookup_insert_eq in Hv. injection Hv as <-.
  rewrite (setstate_accepted_version _ v (lookup_insert_eq _ _ _) Hge) in H.
  rewrite delete_insert_eq in H.
  match type of H with
  | rbind (angle_loop ?d ?l) _ = _ =>
      replace (angle_loop d l) with
        (Ok (<["pixelScale" := PAngle (mkAngle scale radians)]>
            (<["tractOverlap" := PAngle (mkAngle overlap radians)]> d)))
        in H by (vm_compute; reflexivity)
  end.
  cbn [rbind] in H. unfold call___init__ in H.
  match type of H with
  | rbind ?m _ = _ =>
      replace m with
        (Ok (mkInitArgs dims border (mkAngle overlap radians)
               (mkAngle scale radians) proj poles))
        in H by (vm_compute; reflexivity)
  end.
  cbn [rbind] in H.
  apply init_spec in H as (w & h & ts & Hd & _ & ->). simpl in Hd. subst dims.
  unfold __getstate__. simpl. rewrite !Hrad. reflexivity.
Qed.

End DodecaSkyMap.

(** ** The properties on the stand-in library *)

Import AfwStandIn.

Local Abbreviation run_coordFromVec := (_coordFromVec mkAngle LonLat FromVec) (only parsing).
Local Abbreviation run_init :=
  (__init__ mkAngle LonLat FromVec getLongitude makeWcs faceVec faceVertices)
  (only parsing).
Local Abbreviation run_setstate :=
  (__setstate__ mkAngle LonLat FromVec getLongitude makeWcs faceVec faceVertices)
  (only parsing).
Local Abbreviation run_getstate := (__getstate__ asRadians) (only parsing).
Local Abbreviation run_findTract := (findTract icrsVector faceVec) (only parsing).
Local Abbreviation args_default := (default_args mkAngle) (only parsing).
Local Abbreviation args_polar :=
  (mkInitArgs [4000; 4000] 250 (mkAngle 3.5%float degrees)
     (mkAngle (10.0 / 50.0)%float arcseconds)
     "STG" true) (only parsing).

(** At the north pole without a default the conversion raises; at the south
    pole with a default it gives latitude -90 degrees; off the poles the
    default is ignored. *)
Lemma coordFromVec_pole_policy_witness :
  run_coordFromVec (mkVec 0 0 1)%float None = Raise (RuntimeError "At pole and defRA==None") /\
  run_coordFromVec (mkVec 0 0 (-1))%float (Some 0.5%float) =
    Ok (LonLat 0.5%float (mkAngle (-90.0)%float degrees)) /\
  run_coordFromVec (mkVec 1 0 0)%float (Some 0.5%float) = Ok (FromVec (mkVec 1 0 0)%float).
Proof.
  split; [|split].
  - destruct (coordFromVec_pole_policy mkAngle LonLat FromVec (mkVec 0 0 1)%float None) as [Hp _].
    destruct (Hp eq_refl eq_refl) as (_ & Hnone & _). exact (Hnone eq_refl).
  - destruct (coordFromVec_pole_policy mkAngle LonLat FromVec (mkVec 0 0 (-1))%float
                (Some 0.5%float)) as [Hp _].
    destruct (Hp eq_refl eq_refl) as (_ & _ & Hsome). exact (Hsome _ eq_refl).
  - destruct (coordFromVec_pole_policy mkAngle LonLat FromVec (mkVec 1 0 0)%float
                (Some 0.5%float)) as [_ Hoff].
    apply Hoff. left. reflexivity.
Defined.

(** The default sky map has twelve tracts, and its last one has id 11. *)
Lemma dodeca_twelve_tracts_witness :
  exists sm, run_init args_default = Ok sm /\
    length (_tractInfoList sm) = 12%nat /\ __len__ sm = 12 /\
    exists t, __getitem__ sm 11 = Ok t /\ tract_id t = 11%nat.
Proof.
  destruct (run_init args_default) as [sm|e] eqn:E; [|vm_compute in E; discriminate E].
  exists sm. split; [reflexivity|].
  destruct (dodeca_twelve_tracts mkAngle LonLat FromVec getLongitude makeWcs faceVec
              faceVertices args_default sm E) as (Hlen & Hl & Hall).
  split; [exact Hlen|]. split; [exact Hl|].
  destruct (Hall 11%nat ltac:(lia)) as (t & Hget & _ & _ & Hid).
  exists t. split; [exact Hget | exact Hid].
Defined.

(** On the sky map with tracts on the poles, the north pole is in tract 0
    and the south pole in tract 11. *)
Lemma findTract_total_witness :
  exists sm t0 t11, run_init args_polar = Ok sm /\
    run_findTract sm (FromVec (mkVec 0 0 1)%float) = Ok t0 /\ tract_id t0 = 0%nat /\
    run_findTract sm (FromVec (mkVec 0 0 (-1))%float) = Ok t11 /\ tract_id t11 = 11%nat.
Proof.
  destruct (run_init args_polar) as [sm|e] eqn:E; [|vm_compute in E; discriminate E].
  destruct (findTract_total mkAngle LonLat FromVec getLongitude icrsVector makeWcs faceVec
              faceVertices args_polar sm (FromVec (mkVec 0 0 1)%float) E) as (t0 & H0 & _ & Hid0).
  destruct (findTract_total mkAngle LonLat FromVec getLongitude icrsVector makeWcs faceVec
              faceVertices args_polar sm (FromVec (mkVec 0 0 (-1))%float) E) as (t11 & H11 & _ & Hid11).
  exists sm, t0, t11. split; [reflexivity|].
  split; [exact H0|]. split.
  - rewrite Hid0.
    assert (Hd : _dodecahedron sm = mkDodecahedron true).
    { apply init_spec in E as (w & h & ts & _ & _ & ->). reflexivity. }
    rewrite Hd. reflexivity.
  - split; [exact H11|]. rewrite Hid11.
    assert (Hd : _dodecahedron sm = mkDodecahedron true).
    { apply init_spec in E as (w & h & ts & _ & _ & ->). reflexivity. }
    rewrite Hd. reflexivity.
Defined.

(** The default sky map survives pickling. *)
Lemma pickle_roundtrip_witness :
  exists sm, run_init args_default = Ok sm /\
    run_setstate (run_getstate sm) = Ok sm.
Proof.
  destruct (run_init args_default) as [sm|e] eqn:E; [|vm_compute in E; discriminate E].
  exists sm. split; [reflexivity|].
  destruct (pickle_roundtrip mkAngle asRadians LonLat FromVec getLongitude makeWcs faceVec
              faceVertices args_default sm (fun x => eq_refl) E) as (_ & _ & H).
  exact H.
Defined.

(** A patch width of 0 is refused, and so is a border of -1, here with a
    projection code that the factory does not know: the error is the one
    about the patches. *)
Lemma init_rejects_bad_patch_config_witness :
  (exists msg,
     run_init (mkInitArgs [0; 4000] 250 (mkAngle 3.5%float degrees)
                 (mkAngle 0.25%float arcseconds) "XXX" false) =
       Raise (ConfigurationError msg)) /\
  (exists msg,
     run_init (mkInitArgs [4000; 4000] (-1) (mkAngle 3.5%float degrees)
                 (mkAngle 0.25%float arcseconds) "XXX" false) =
       Raise (ConfigurationError msg)).
Proof.
  split.
  - destruct (init_rejects_bad_patch_config mkAngle LonLat FromVec getLongitude makeWcs
                faceVec faceVertices
                (mkInitArgs [0; 4000] 250 (mkAngle 3.5%float degrees)
                   (mkAngle 0.25%float arcseconds) "XXX" false)
                0 4000 eq_refl ltac:(simpl; lia)) as (msg & _ & H & _).
    exists msg. exact H.
  - destruct (init_rejects_bad_patch_config mkAngle LonLat FromVec getLongitude makeWcs
                faceVec faceVertices
                (mkInitArgs [4000; 4000] (-1) (mkAngle 3.5%float degrees)
                   (mkAngle 0.25%float arcseconds) "XXX" false)
                4000 4000 eq_refl ltac:(simpl; lia)) as (msg & _ & H & _).
    exists msg. exact H.
Defined.

(** With tracts on the poles, tract 0 is centered on the north pole and its
    center has longitude 0. *)
Lemma init_no_pole_error_witness :
  exists sm t, run_init args_polar = Ok sm /\
    _tractInfoList sm !! 0%nat = Some t /\
    tract_ctrCoord t = LonLat 0%float (mkAngle 90.0%float degrees) /\
    getLongitude (tract_ctrCoord t) = 0%float.
Proof.
  destruct (run_init args_polar) as [sm|e] eqn:E; [|vm_compute in E; discriminate E].
  destruct (init_tracts _ _ _ _ _ _ _ _ sm E) as [_ Hall].
  destruct (Hall 0%nat ltac:(lia)) as (t & Ht & _ & _).
  exists sm, t. split; [reflexivity|]. split; [exact Ht|].
  destruct (init_no_pole_error mkAngle LonLat FromVec getLongitude makeWcs faceVec
              faceVertices args_polar) as (_ & _ & Htract).
  destruct (Htract sm 0%nat t E Ht) as (_ & _ & Hpole).
  destruct (Hpole eq_refl eq_refl) as [Hctr Hlon].
  split; [exact Hctr|]. apply Hlon. intros lat. reflexivity.
Defined.

(** The default sky map has version (1, 0), and so has the instance set
    from its state with the version replaced by (1, 5). *)
Lemma version_is_1_0_witness :
  exists sm sm', run_init args_default = Ok sm /\ getVersion sm = [1; 0] /\
    run_setstate (<["version" := PTuple [1; 5]]> (run_getstate sm)) = Ok sm' /\
    getVersion sm' = [1; 0].
Proof.
  destruct (version_is_1_0 mkAngle asRadians LonLat FromVec getLongitude makeWcs faceVec
              faceVertices) as [Hinit Hset].
  eexists. eexists.
  split; [vm_compute; reflexivity|].
  split; [refine (proj1 (Hinit args_default _ _)); vm_compute; reflexivity|].
  match goal with
  | |- ?P /\ _ => assert (Hs : P) by (vm_compute; reflexivity)
  end.
  split; [exact Hs|]. exact (Hset _ _ Hs).
Defined.

(** A state pickled with version (2, 0): unpickling ends with the
    NameError. *)
Lemma setstate_future_version_witness :
  run_setstate
    (<["version" := PTuple [2; 0]]>
    (<["patchInnerDimensions" := PTuple [4000; 4000]]>
    (<["patchBorder" := PInt 250]>
    (<["tractOverlap" := PFloat 0.0625%float]>
    (<["pixelScale" := PFloat 0x1p-20%float]>
    (<["projection" := PStr "STG"]>
    (<["withTractsOnPoles" := PBool false]> ∅))))))) =
  Raise (NameError "runtimeError").
Proof.
  apply (setstate_future_version mkAngle LonLat FromVec getLongitude makeWcs faceVec
           faceVertices _ [2; 0]).
  - vm_compute. reflexivity.
  - reflexivity.
Defined.

(** ** Further properties on the stand-in library *)

Local Abbreviation run_setstate_run :=
  (__setstate___run mkAngle LonLat FromVec getLongitude makeWcs faceVec faceVertices)
  (only parsing).
Local Abbreviation state_of v :=
  (<["version" := PTuple v]>
  (<["patchInnerDimensions" := PTuple [4000; 4000]]>
  (<["patchBorder" := PInt 250]>
  (<["tractOverlap" := PFloat 0.0625%float]>
  (<["pixelScale" := PFloat 0x1p-20%float]>
  (<["projection" := PStr "STG"]>
  (<["withTractsOnPoles" := PBool false]> ∅)))))))
  (only parsing).
Local Abbreviation state_short :=
  (<["version" := PTuple [1; 0]]>
  (<["tractOverlap" := PFloat 0.0625%float]>
  (<["pixelScale" := PFloat 0x1p-20%float]> ∅)))
  (only parsing).

(** A vector with a NaN first component is converted without a default. *)
Lemma coordFromVec_nan_witness :
  run_coordFromVec (mkVec nan 0 1)%float None = Ok (FromVec (mkVec nan 0 1)%float).
Proof.
  apply (coordFromVec_nan mkAngle LonLat FromVec (mkVec nan 0 1)%float None).
  left. reflexivity.
Defined.

(** In the default sky map tract 0 has five vertices, and the first is the
    north pole with the longitude of the tract's center. *)
Lemma tract_coordinates_witness :
  exists sm t, run_init args_default = Ok sm /\
    _tractInfoList sm !! 0%nat = Some t /\
    length (tract_vertexCoordList t) = 5%nat /\
    tract_vertexCoordList t !! 0%nat =
      Some (LonLat (getLongitude (tract_ctrCoord t)) (mkAngle 90.0%float degrees)).
Proof.
  destruct (run_init args_default) as [sm|e] eqn:E; [|vm_compute in E; discriminate E].
  destruct (init_tracts _ _ _ _ _ _ _ _ sm E) as [_ Hall].
  destruct (Hall 0%nat ltac:(lia)) as (t & Ht & _ & _).
  exists sm, t. split; [reflexivity|]. split; [exact Ht|].
  destruct (tract_coordinates mkAngle LonLat FromVec getLongitude makeWcs faceVec
              faceVertices args_default sm 0%nat t E Ht) as (_ & Hlen & Hv).
  split; [exact Hlen|].
  exact (Hv 0%nat (mkVec 0 0 1)%float eq_refl).
Defined.

(** Tract 7 of the default sky map has the sky map's patch border. *)
Lemma tract_configuration_witness :
  exists sm t, run_init args_default = Ok sm /\
    _tractInfoList sm !! 7%nat = Some t /\
    tract_patchBorder t = getPatchBorder sm.
Proof.
  destruct (run_init args_default) as [sm|e] eqn:E; [|vm_compute in E; discriminate E].
  destruct (init_tracts _ _ _ _ _ _ _ _ sm E) as [_ Hall].
  destruct (Hall 7%nat ltac:(lia)) as (t & Ht & _ & _).
  exists sm, t. split; [reflexivity|]. split; [exact Ht|].
  destruct (tract_configuration mkAngle LonLat FromVec getLongitude makeWcs faceVec
              faceVertices args_default sm 7%nat t E Ht) as (_ & Hb & _).
  exact Hb.
Defined.

(** The state of the sky map with tracts on the poles holds the flag. *)
Lemma getstate_of_init_witness :
  exists sm, run_init args_polar = Ok sm /\
    getWithTractsOnPoles sm = true /\
    run_getstate sm !! "withTractsOnPoles" = Some (PBool true).
Proof.
  destruct (run_init args_polar) as [sm|e] eqn:E; [|vm_compute in E; discriminate E].
  exists sm. split; [reflexivity|].
  destruct (getstate_of_init mkAngle asRadians LonLat FromVec getLongitude makeWcs faceVec
              faceVertices args_polar sm E) as [Hp Hst].
  split; [exact Hp|]. rewrite Hst. vm_compute. reflexivity.
Defined.

(** The arguments read back from the default sky map are the default ones. *)
Lemma init_injective_witness :
  exists sm, run_init args_default = Ok sm /\
    mkInitArgs [4000; 4000] 250 (mkAngle 3.5%float degrees)
      (mkAngle (10.0 / 50.0)%float arcseconds) "STG" false = args_default.
Proof.
  destruct (run_init args_default) as [sm|e] eqn:E; [|vm_compute in E; discriminate E].
  exists sm. split; [reflexivity|].
  apply (init_injective mkAngle LonLat FromVec getLongitude makeWcs faceVec faceVertices
           _ _ sm); exact E.
Defined.

(** Two constructions from the default arguments have the same state, and
    are the same sky map. *)
Lemma getstate_injective_witness :
  exists sm1 sm2, run_init args_default = Ok sm1 /\
    run_init (mkInitArgs [4000; 4000] 250 (mkAngle 3.5%float degrees)
                (mkAngle (10.0 / 50.0)%float arcseconds) "STG" false) = Ok sm2 /\
    sm1 = sm2.
Proof.
  destruct (run_init args_default) as [sm|e] eqn:E; [|vm_compute in E; discriminate E].
  exists sm, sm. split; [reflexivity|]. split; [exact E|].
  apply (getstate_injective mkAngle asRadians LonLat FromVec getLongitude makeWcs faceVec
           faceVertices args_default args_default sm sm (fun x => eq_refl) E E eq_refl).
Defined.

(** A second [__setstate__] on the same dictionary raises. *)
Lemma setstate_uses_up_dict_witness :
  run_setstate (snd (run_setstate_run (state_of [1; 0]))) = Raise (KeyError "version").
Proof.
  destruct (setstate_uses_up_dict mkAngle LonLat FromVec getLongitude makeWcs faceVec
              faceVertices (state_of [1; 0])) as (_ & H & _).
  exact H.
Defined.

(** The three missing items, on an empty dictionary and on two short ones. *)
Lemma setstate_missing_key_witness :
  run_setstate ∅ = Raise (KeyError "version") /\
  run_setstate (<["version" := PTuple [1; 0]]> ∅) = Raise (KeyError "tractOverlap") /\
  run_setstate (<["version" := PTuple [1; 0]]> (<["tractOverlap" := PFloat 0.0625%float]> ∅))
    = Raise (KeyError "pixelScale").
Proof.
  split; [|split].
  - apply (setstate_missing_key mkAngle LonLat FromVec getLongitude makeWcs faceVec
             faceVertices ∅). reflexivity.
  - destruct (setstate_missing_key mkAngle LonLat FromVec getLongitude makeWcs faceVec
                faceVertices (<["version" := PTuple [1; 0]]> ∅)) as [_ H].
    destruct (H [1; 0] ltac:(vm_compute; reflexivity) eq_refl) as [H1 _].
    apply H1. vm_compute. reflexivity.
  - destruct (setstate_missing_key mkAngle LonLat FromVec getLongitude makeWcs faceVec
                faceVertices
                (<["version" := PTuple [1; 0]]>
                   (<["tractOverlap" := PFloat 0.0625%float]> ∅))) as [_ H].
    destruct (H [1; 0] ltac:(vm_compute; reflexivity) eq_refl) as [_ H2].
    apply (H2 0.0625%float); vm_compute; reflexivity.
Defined.

(** Versions (1, 0) and (0, 3) of the same state unpickle alike. *)
Lemma setstate_version_irrelevant_witness :
  run_setstate (<["version" := PTuple [1; 0]]> (state_of [2; 7])) =
  run_setstate (<["version" := PTuple [0; 3]]> (state_of [2; 7])).
Proof.
  apply (setstate_version_irrelevant mkAngle LonLat FromVec getLongitude makeWcs faceVec
           faceVertices (state_of [2; 7]) [1; 0] [0; 3]); reflexivity.
Defined.

(** A state with the version and the two angles only unpickles with the
    default border and projection. *)
Lemma setstate_is_init_witness :
  exists sm a, run_setstate state_short = Ok sm /\ run_init a = Ok sm /\
    tractOverlap a = 0.0625%float /\ patchBorder a = 250 /\ projection a = "STG".
Proof.
  destruct (run_setstate state_short) as [sm|e] eqn:E; [|vm_compute in E; discriminate E].
  destruct (setstate_is_init mkAngle LonLat FromVec getLongitude makeWcs faceVec
              faceVertices state_short sm E)
    as (a & Hi & Ho & _ & _ & _ & _ & _ & _ & Hb & Hp & _).
  exists sm, a. split; [reflexivity|]. split; [exact Hi|].
  split; [apply (Ho 0.0625%float); vm_compute; reflexivity|].
  split; [apply Hb | apply Hp]; vm_compute; reflexivity.
Defined.

(** The projection of an accepted state is one of the expected keys. *)
Lemma setstate_no_unexpected_key_witness :
  "projection" ∈ "version" :: init_params.
Proof.
  destruct (run_setstate (state_of [1; 0])) as [sm|e] eqn:E;
    [|vm_compute in E; discriminate E].
  apply (setstate_no_unexpected_key mkAngle LonLat FromVec getLongitude makeWcs faceVec
           faceVertices (state_of [1; 0]) sm "projection" E).
  vm_compute. discriminate.
Defined.

(** Version (3, 1) is refused. *)
Lemma setstate_rejects_pair_witness :
  run_setstate (state_of [3; 1]) = Raise (NameError "runtimeError").
Proof.
  apply (setstate_rejects_pair mkAngle LonLat FromVec getLongitude makeWcs faceVec
           faceVertices (state_of [3; 1]) 3 1).
  - vm_compute. reflexivity.
  - left. lia.
Defined.

(** A full state read back after unpickling, its version now (1, 0). *)
Lemma getstate_setstate_witness :
  exists sm, run_setstate (state_of [0; 9]) = Ok sm /\
    run_getstate sm = state_of [1; 0].
Proof.
  destruct (run_setstate (state_of [0; 9])) as [sm|e] eqn:E;
    [|vm_compute in E; discriminate E].
  exists sm. split; [reflexivity|].
  apply (getstate_setstate mkAngle asRadians LonLat FromVec getLongitude makeWcs faceVec
           faceVertices [0; 9] [4000; 4000] 250 0.0625%float 0x1p-20%float "STG" false sm
           (fun x => eq_refl) E).
Defined.
